(** * Leak-test application: device parsing and report arithmetic

    A shallow embedding of the parts of the leak-test application that its
    specification makes claims about:

    - [create_pdf.py]: [convert_he_to_air], [get_elem_direction_value], the
      measurement conversion loop of [create_pdf],
      [load_data_from_database_pdf], [create_graphs] and the statements of
      [create_pdf] that save the graphs and remove the temporary files;
    - [helium.py]: [parse_data], [read_from_serial] and
      [read_data_from_helium];
    - [HeliumLeakTestApp.py]: [get_power_on_time], [update_timer],
      [stop_timer] and [display_active_message];
    - [check_serial.py]: [stop_gas_flow] and the two scan passes of
      [get_serial_devices].

    Conventions.  Python floats are idealised as real numbers with exact
    arithmetic.  Python strings are 8-bit strings ([string], or [list ascii]
    where the text is scanned).  Exceptions are values of [exn]; code that
    threads state is written in a state-and-exception monad. *)

From Stdlib Require Import Reals Lra Psatz.
From Stdlib Require Import String Ascii List ZArith Lia Bool Arith.
From Stdlib Require Import DecimalString.
Import ListNotations.

Set Implicit Arguments.

(** ** Exceptions and results *)

Inductive exn : Type :=
| SerialException
| ValueError
| TypeError
| NameError
| RecursionError.

Inductive result (A : Type) : Type :=
| Ok (a : A)
| Raise (e : exn).

Arguments Ok {A} a.
Arguments Raise {A} e.

(** ** Python numbers of the report arithmetic

    A leak rate is a float; [x ** 0.5] of a negative float is a complex
    number in Python 3, which the conversion then multiplies and returns. *)

Inductive pynum : Type :=
| PyFloat (x : R)
| PyComplex (re im : R).

(** [float(v)]: the identity on a float, [TypeError] on a complex. *)
Definition py_float (v : pynum) : result R :=
  match v with
  | PyFloat x => Ok x
  | PyComplex _ _ => Raise TypeError
  end.

(** [v * a] for a float [a]. *)
Definition py_mul_float (v : pynum) (a : R) : pynum :=
  match v with
  | PyFloat x => PyFloat (x * a)
  | PyComplex re im => PyComplex (re * a) (im * a)
  end.

(** [a * v] for a float [a]. *)
Definition py_float_mul (a : R) (v : pynum) : pynum :=
  match v with
  | PyFloat x => PyFloat (a * x)
  | PyComplex re im => PyComplex (a * re) (a * im)
  end.

(** [x ** 0.5]: the square root of a non-negative float, the imaginary root
    of a negative one. *)
Definition py_pow_half (x : R) : pynum :=
  if Rle_dec 0 x then PyFloat (sqrt x) else PyComplex 0 (sqrt (- x)).

(** [<=] between two Python numbers: defined between floats only (Python
    raises [TypeError] when a complex number is compared). *)
Definition py_le (a b : pynum) : Prop :=
  match a, b with
  | PyFloat x, PyFloat y => (x <= y)%R
  | _, _ => False
  end.

(** ** create_pdf.py: data model *)

Record Report : Type := mkReport {
  test_medium : string;
  note : string;
  image : string;
  pressure_difference : R;
  rate_unit : string;
  graph_type : Z
}.

Record Measurement : Type := mkMeasurement {
  panel_no : string;
  location_no : string;
  time_in_seconds : R;
  value_mbarl_second : pynum;
  max_value : pynum;
  average_temperature : R
}.

(** A specimen's stored JSON arrays, decoded. *)
Record Specimen : Type := mkSpecimen {
  x_value : list R;
  y_value : list R
}.

(** The variables the nested functions of [create_pdf] share: the arguments
    and locals of [create_pdf] that they close over, the repository's
    specimens, and the module globals [element_listx] and [element_listy].
    [measurement] is the loop variable of [create_pdf]: a reference to an
    object of [measurements_list] (its position), unbound before the first
    iteration of a loop over the list. *)
Record Env : Type := mkEnv {
  report_data : Report;
  specimens : list Specimen;
  measurements_list : list Measurement;
  measurement : option nat;
  flag : bool;
  df_list : list (string * string * R * pynum * R);
  element_listx : list (list R);
  element_listy : list (list pynum)
}.

(** ** The state-and-exception monad

    A computation maps the state to its outcome and the state it leaves
    behind; what was written before an exception stays written. *)

Definition ST (S A : Type) : Type := S -> result A * S.

Definition ret {S A} (a : A) : ST S A := fun s => (Ok a, s).

Definition bind {S A B} (m : ST S A) (k : A -> ST S B) : ST S B :=
  fun s =>
    match m s with
    | (Ok a, s') => k a s'
    | (Raise x, s') => (Raise x, s')
    end.

Definition raise {S A} (x : exn) : ST S A := fun s => (Raise x, s).

Definition get {S} : ST S S := fun s => (Ok s, s).

Definition put {S} (s' : S) : ST S unit := fun _ => (Ok tt, s').

Definition modify {S} (f : S -> S) : ST S unit := fun s => (Ok tt, f s).

Definition lift {S A} (r : result A) : ST S A := fun s => (r, s).

(** The computations of [create_pdf] run on its environment. *)
Definition M (A : Type) : Type := ST Env A.

Declare Scope monad_scope.
Delimit Scope monad_scope with monad.
Notation "x <- m ;; k" := (bind m (fun x => k))
  (at level 61, m at next level, right associativity) : monad_scope.
Notation "m ;;; k" := (bind m (fun _ => k))
  (at level 61, right associativity) : monad_scope.

Local Open Scope monad_scope.
Local Open Scope string_scope.
Local Open Scope R_scope.

(** ** create_pdf.py: constants *)

Definition ETA_HE : R := 19.6.
Definition ETA_AIR : R := 18.19.
Definition PA1 : R := 1.0.
Definition PA2 : R := 0.0.
Definition PB2 : R := 1.0.
Definition T1 : R := 273.0.

(** ** create_pdf.py: convert_he_to_air *)

Definition convert_he_to_air (he_leak_rate : pynum) (average_temperature : R)
  : M pynum :=
  e <- get ;;
  let pb1 := pressure_difference (report_data e) + 1 in
  let delta_p := (pb1 ^ 2 - PB2 ^ 2) / (PA1 ^ 2 - PA2 ^ 2) in
  h <- lift (py_float he_leak_rate) ;;
  let air_leakrate := h * (ETA_HE / ETA_AIR) in
  let air_leakrate :=
    if Rlt_dec 0 delta_p then air_leakrate * delta_p else air_leakrate in
  if (rate_unit (report_data e) =? "SCCM")%string then
    let air_leakrate_cm3_min := air_leakrate * 60 in
    ret (py_float_mul air_leakrate_cm3_min
           (py_pow_half (average_temperature / T1)))
  else
    ret (PyFloat air_leakrate).

(** ** create_pdf.py: assignments to the shared variables *)

Definition set_measurement (r : option nat) (e : Env) : Env :=
  mkEnv (report_data e) (specimens e) (measurements_list e) r (flag e)
        (df_list e) (element_listx e) (element_listy e).

Definition set_measurements_list (l : list Measurement) (e : Env) : Env :=
  mkEnv (report_data e) (specimens e) l (measurement e) (flag e)
        (df_list e) (element_listx e) (element_listy e).

Definition set_flag (b : bool) (e : Env) : Env :=
  mkEnv (report_data e) (specimens e) (measurements_list e) (measurement e) b
        (df_list e) (element_listx e) (element_listy e).

Definition set_df_list (d : list (string * string * R * pynum * R)) (e : Env)
  : Env :=
  mkEnv (report_data e) (specimens e) (measurements_list e) (measurement e)
        (flag e) d (element_listx e) (element_listy e).

Definition set_element_listx (l : list (list R)) (e : Env) : Env :=
  mkEnv (report_data e) (specimens e) (measurements_list e) (measurement e)
        (flag e) (df_list e) l (element_listy e).

Definition set_element_listy (l : list (list pynum)) (e : Env) : Env :=
  mkEnv (report_data e) (specimens e) (measurements_list e) (measurement e)
        (flag e) (df_list e) (element_listx e) l.

Definition set_max_value (v : pynum) (m : Measurement) : Measurement :=
  mkMeasurement (panel_no m) (location_no m) (time_in_seconds m)
                (value_mbarl_second m) v (average_temperature m).

Definition set_value_mbarl_second (v : pynum) (m : Measurement) : Measurement :=
  mkMeasurement (panel_no m) (location_no m) (time_in_seconds m)
                v (max_value m) (average_temperature m).

(** [update_nth i f l]: the object at position [i] of [l] changed by [f]. *)
Fixpoint update_nth {A} (i : nat) (f : A -> A) (l : list A) : list A :=
  match l, i with
  | [], _ => []
  | x :: l', O => f x :: l'
  | x :: l', S i' => x :: update_nth i' f l'
  end.

(** Evaluating the name [measurement]: the object it refers to, [NameError]
    while it is unbound. *)
Definition read_measurement : M Measurement :=
  e <- get ;;
  match measurement e with
  | None => raise NameError
  | Some i =>
      match nth_error (measurements_list e) i with
      | Some m => ret m
      | None => raise NameError
      end
  end.

(** An attribute assignment [measurement.attr = v]. *)
Definition write_measurement (f : Measurement -> Measurement) : M unit :=
  e <- get ;;
  match measurement e with
  | None => raise NameError
  | Some i => put (set_measurements_list (update_nth i f (measurements_list e)) e)
  end.

(** ** create_pdf.py: the measurement conversion loop *)

(** The body of [for measurement in measurements_list]; the result says
    whether the loop breaks. *)
Definition convert_measurement : M bool :=
  e <- get ;;
  (if (rate_unit (report_data e) =? "cm³/min")%string then
     m <- read_measurement ;;
     write_measurement (set_max_value (py_mul_float (max_value m) 60)) ;;;
     m <- read_measurement ;;
     write_measurement
       (set_value_mbarl_second (py_mul_float (value_mbarl_second m) 60)) ;;;
     modify (set_flag false)
   else ret tt) ;;;
  e <- get ;;
  (if (test_medium (report_data e) =? "Air")%string then
     m <- read_measurement ;;
     v <- convert_he_to_air (max_value m) (average_temperature m) ;;
     write_measurement (set_max_value v) ;;;
     m <- read_measurement ;;
     v <- convert_he_to_air (value_mbarl_second m) (average_temperature m) ;;
     write_measurement (set_value_mbarl_second v) ;;;
     modify (set_flag false)
   else ret tt) ;;;
  e <- get ;;
  ret (flag e).

(** [for measurement in measurements_list: body], over the positions of the
    list; [body] returns [true] to break. *)
Fixpoint for_measurement (body : M bool) (refs : list nat) : M unit :=
  match refs with
  | [] => ret tt
  | i :: refs' =>
      modify (set_measurement (Some i)) ;;;
      brk <- body ;;
      if brk then ret tt else for_measurement body refs'
  end.

(** The row appended to [df_list]: the panel and location numbers, the time
    handed to [round], the leak rate handed to the format specifier and
    [float(measurement.max_value)]. *)
Definition append_row : M bool :=
  m <- read_measurement ;;
  mx <- lift (py_float (max_value m)) ;;
  e <- get ;;
  put (set_df_list
         (df_list e ++
          [(panel_no m, location_no m, time_in_seconds m,
            value_mbarl_second m, mx)]) e) ;;;
  ret false.

(** ** create_pdf.py: load_data_from_database_pdf *)

Definition convert_y_value (y_value : R) : M pynum :=
  e <- get ;;
  let y_value :=
    if (rate_unit (report_data e) =? "cm³/min")%string
    then y_value * 60 else y_value in
  if (test_medium (report_data e) =? "Air")%string then
    m <- read_measurement ;;
    convert_he_to_air (PyFloat y_value) (average_temperature m)
  else ret (PyFloat y_value).

Fixpoint convert_y_values (ys : list R) : M (list pynum) :=
  match ys with
  | [] => ret []
  | y :: ys' =>
      v <- convert_y_value y ;;
      vs <- convert_y_values ys' ;;
      ret (v :: vs)
  end.

Fixpoint load_specimens (sps : list Specimen) : M unit :=
  match sps with
  | [] => ret tt
  | specimen :: sps' =>
      converted_leak_rates <- convert_y_values (y_value specimen) ;;
      modify (fun e => set_element_listy
                         (element_listy e ++ [converted_leak_rates]) e) ;;;
      modify (fun e => set_element_listx
                         (element_listx e ++ [x_value specimen]) e) ;;;
      load_specimens sps'
  end.

Definition load_data_from_database_pdf : M unit :=
  modify (set_element_listx []) ;;;
  modify (set_element_listy []) ;;;
  e <- get ;;
  load_specimens (specimens e).

(** ** create_pdf.py: the data path of create_pdf

    The statements of [create_pdf] between the deep copy of the session's
    measurements and the call of [load_data_from_database_pdf]; the drawing
    calls between them do not touch these variables. *)
Definition create_pdf : M unit :=
  modify (set_flag true) ;;;
  e <- get ;;
  for_measurement convert_measurement (seq 0 (length (measurements_list e))) ;;;
  modify (set_df_list []) ;;;
  e <- get ;;
  for_measurement append_row (seq 0 (length (measurements_list e))) ;;;
  load_data_from_database_pdf.

(** The environment in which [create_pdf] starts: the report, the session's
    specimens, the deep copy of its measurements; the loop variable is
    unbound, the globals hold whatever an earlier report left. *)
Definition initial_env (rd : Report) (sps : list Specimen)
    (ms : list Measurement) (gx : list (list R)) (gy : list (list pynum))
  : Env :=
  mkEnv rd sps ms None true [] gx gy.

(** ** create_pdf.py: get_elem_direction_value *)

Definition get_elem_direction_value (direction : string) : string :=
  if (direction =? "0")%string then "Nut facing upwards"
  else if (direction =? "1")%string then "Nut facing downwards"
  else if (direction =? "2")%string then "Capnut facing upwards"
  else if (direction =? "3")%string then "Capnut facing downwards"
  else if (direction =? "4")%string then "Bolt facing upwards"
  else if (direction =? "5")%string then "Bolt facing downwards"
  else "".

(** ** create_pdf.py: what the conversions compute

    The functions below name the values that the code above computes; the
    lemmas of the second part relate them to it. *)

(** The air leak rate for a helium leak rate [h] at temperature [T]: the
    value [convert_he_to_air] returns. *)
Definition air_leak_rate (rd : Report) (h T : R) : pynum :=
  let p := pressure_difference rd in
  let a := if Rlt_dec 0 (p * (p + 2))
           then h * (ETA_HE / ETA_AIR) * (p * (p + 2))
           else h * (ETA_HE / ETA_AIR) in
  if (rate_unit rd =? "SCCM")%string
  then py_float_mul (a * 60) (py_pow_half (T / T1))
  else PyFloat a.

Definition is_float (v : pynum) : Prop :=
  match v with
  | PyFloat _ => True
  | PyComplex _ _ => False
  end.

Definition float_of (v : pynum) : R :=
  match v with
  | PyFloat x => x
  | PyComplex _ _ => 0
  end.

(** A measurement as the database stores it: both leak rates are floats. *)
Definition floats (m : Measurement) : Prop :=
  is_float (value_mbarl_second m) /\ is_float (max_value m).

(** A stored measurement whose conversions stay real numbers. *)
Definition real_valued (rd : Report) (m : Measurement) : Prop :=
  floats m /\ (rate_unit rd = "SCCM" -> 0 <= average_temperature m).

(** One iteration of the conversion loop on its measurement. *)
Definition to_minutes (m : Measurement) : Measurement :=
  set_value_mbarl_second (py_mul_float (value_mbarl_second m) 60)
    (set_max_value (py_mul_float (max_value m) 60) m).

Definition to_air (rd : Report) (m : Measurement) : Measurement :=
  match max_value m, value_mbarl_second m with
  | PyFloat mx, PyFloat v =>
      set_value_mbarl_second (air_leak_rate rd v (average_temperature m))
        (set_max_value (air_leak_rate rd mx (average_temperature m)) m)
  | _, _ => m
  end.

Definition converted (rd : Report) (m : Measurement) : Measurement :=
  let m := if (rate_unit rd =? "cm³/min")%string then to_minutes m else m in
  if (test_medium rd =? "Air")%string then to_air rd m else m.

(** The row of [df_list] for a measurement. *)
Definition row (m : Measurement) : string * string * R * pynum * R :=
  (panel_no m, location_no m, time_in_seconds m, value_mbarl_second m,
   float_of (max_value m)).

(** A specimen point as the report presents it, for the temperature [T] of
    the measurement that [measurement] refers to. *)
Definition presented (rd : Report) (T : R) (y : R) : pynum :=
  let y := if (rate_unit rd =? "cm³/min")%string then y * 60 else y in
  if (test_medium rd =? "Air")%string then air_leak_rate rd y T
  else PyFloat y.

(** ** create_pdf.py: sample reports and sessions *)

Definition report_sccm : Report := mkReport "Air" "" "" 0 "SCCM" 0.

Definition env_sccm : Env := initial_env report_sccm [] [] [] [].

Definition env_with_pressure (p : R) : Env :=
  initial_env (mkReport "Air" "" "" p "cm³/min" 0) [] [] [] [].

Definition env_a : Env :=
  mkEnv (mkReport "Air" "first" "" 0.5 "SCCM" 0)
        [mkSpecimen [0; 1] [2; 3]]
        [mkMeasurement "1" "1" 10 (PyFloat 1) (PyFloat 2) 293]
        (Some 0%nat) false [] [[1]] [[PyFloat 1]].

Definition env_b : Env :=
  mkEnv (mkReport "He" "second" "png" 0.5 "SCCM" 2) [] [] None true [] [] [].

Definition report_he_minutes : Report :=
  mkReport "He" "" "" 0 "cm³/min" 0.

Definition report_air_sccm : Report := mkReport "Air" "" "" 0.5 "SCCM" 0.

Definition cold : Measurement :=
  mkMeasurement "1" "1" 12 (PyFloat 0.001) (PyFloat 0.002) 283.

Definition warm : Measurement :=
  mkMeasurement "1" "2" 15 (PyFloat 0.003) (PyFloat 0.004) 303.

Definition specimen_1 : Specimen := mkSpecimen [0; 1; 2] [0.001; 0.002; 0.001].

Local Close Scope R_scope.

(** ** Exceptions without state *)

Definition rbind {A B} (r : result A) (k : A -> result B) : result B :=
  match r with
  | Ok a => k a
  | Raise x => Raise x
  end.

Declare Scope result_scope.
Delimit Scope result_scope with res.
Notation "x <- m ;; k" := (rbind m (fun x => k))
  (at level 61, m at next level, right associativity) : result_scope.
Notation "m ;;; k" := (rbind m (fun _ => k))
  (at level 61, right associativity) : result_scope.

Definition exn_eqb (a b : exn) : bool :=
  match a, b with
  | SerialException, SerialException => true
  | ValueError, ValueError => true
  | TypeError, TypeError => true
  | NameError, NameError => true
  | RecursionError, RecursionError => true
  | _, _ => false
  end.

(** [try: body / except x: handler]. *)
Definition try_except {A} (x : exn) (body handler : result A) : result A :=
  match body with
  | Ok a => Ok a
  | Raise y => if exn_eqb y x then handler else Raise y
  end.

(** ** Python values that the device functions return *)

Inductive pyval : Type :=
| PNone
| PInt (z : Z)
| PStr (s : string).

(** ** Text: character classes and [str.strip] *)

(** [\s] and [str.isspace] on 8-bit characters. *)
Definition is_space (c : ascii) : bool :=
  let n := nat_of_ascii c in
  ((9 <=? n)%nat && (n <=? 13)%nat) || ((28 <=? n)%nat && (n <=? 32)%nat)
  || (n =? 133)%nat || (n =? 160)%nat.

(** [\d] on 8-bit characters. *)
Definition is_digit (c : ascii) : bool :=
  let n := nat_of_ascii c in
  (48 <=? n)%nat && (n <=? 57)%nat.

Fixpoint lstrip (l : list ascii) : list ascii :=
  match l with
  | c :: l' => if is_space c then lstrip l' else l
  | [] => []
  end.

Definition rstrip (l : list ascii) : list ascii := rev (lstrip (rev l)).

Definition strip (s : string) : string :=
  string_of_list_ascii (rstrip (lstrip (list_ascii_of_string s))).

(** ** helium.py: the regular expressions [parse_data] needs

    The constructs of the pattern: literal text, a character class repeated
    greedily ([+], [*]) or a fixed number of times ([{n}]), sequencing and
    numbered capturing groups. *)

Inductive charclass : Type := Space | Digit.

Definition in_class (c : charclass) (x : ascii) : bool :=
  match c with
  | Space => is_space x
  | Digit => is_digit x
  end.

Inductive regex : Type :=
| RLit (l : list ascii)
| RPlus (c : charclass)
| RStar (c : charclass)
| RRep (n : nat) (c : charclass)
| RSeq (r1 r2 : regex)
| RGroup (i : nat) (r : regex).

Definition captures : Type := list (nat * list ascii).

(** [match.group(i)]. *)
Fixpoint group (i : nat) (caps : captures) : list ascii :=
  match caps with
  | [] => []
  | (j, m) :: caps' => if (j =? i)%nat then m else group i caps'
  end.

(** [strip_prefix l s]: what follows [l] at the start of [s]. *)
Fixpoint strip_prefix (l s : list ascii) : option (list ascii) :=
  match l, s with
  | [], _ => Some s
  | a :: l', b :: s' => if Ascii.eqb a b then strip_prefix l' s' else None
  | _ :: _, [] => None
  end.

(** The ways to split [s] after a run of class [c], the longest run first:
    the order in which a greedy repetition tries them. *)
Fixpoint star_splits (c : charclass) (s : list ascii)
  : list (list ascii * list ascii) :=
  match s with
  | x :: s' =>
      if in_class c x
      then map (fun p => (x :: fst p, snd p)) (star_splits c s') ++ [([], s)]
      else [([], s)]
  | [] => [([], [])]
  end.

Definition plus_splits (c : charclass) (s : list ascii)
  : list (list ascii * list ascii) :=
  match s with
  | x :: s' =>
      if in_class c x
      then map (fun p => (x :: fst p, snd p)) (star_splits c s')
      else []
  | [] => []
  end.

Fixpoint rep_split (n : nat) (c : charclass) (s : list ascii)
  : option (list ascii * list ascii) :=
  match n with
  | O => Some ([], s)
  | S n' =>
      match s with
      | x :: s' =>
          if in_class c x
          then match rep_split n' c s' with
               | Some (m, rest) => Some (x :: m, rest)
               | None => None
               end
          else None
      | [] => None
      end
  end.

(** The backtracking matcher: every way [r] matches at the start of [s], as
    (matched text, rest, groups), in the order backtracking finds them. *)
Fixpoint rmatch (r : regex) (s : list ascii) (caps : captures)
  : list (list ascii * list ascii * captures) :=
  match r with
  | RLit l =>
      match strip_prefix l s with
      | Some rest => [(l, rest, caps)]
      | None => []
      end
  | RPlus c => map (fun p => (fst p, snd p, caps)) (plus_splits c s)
  | RStar c => map (fun p => (fst p, snd p, caps)) (star_splits c s)
  | RRep n c =>
      match rep_split n c s with
      | Some (m, rest) => [(m, rest, caps)]
      | None => []
      end
  | RSeq r1 r2 =>
      flat_map
        (fun a =>
           match a with
           | (m1, rest1, caps1) =>
               map (fun b =>
                      match b with
                      | (m2, rest2, caps2) => ((m1 ++ m2)%list, rest2, caps2)
                      end)
                   (rmatch r2 rest1 caps1)
           end)
        (rmatch r1 s caps)
  | RGroup i r' =>
      map (fun a =>
             match a with
             | (m, rest, caps') => (m, rest, (i, m) :: caps')
             end)
          (rmatch r' s caps)
  end.

(** [re.search]: the first match at the leftmost position that has one. *)
Fixpoint search (r : regex) (s : list ascii)
  : option (list ascii * list ascii * captures) :=
  match rmatch r s [] with
  | a :: _ => Some a
  | [] =>
      match s with
      | [] => None
      | _ :: s' => search r s'
      end
  end.

(** ** helium.py: parse_data *)

Definition lit (s : string) : regex := RLit (list_ascii_of_string s).

Notation "r1 +++ r2" := (RSeq r1 r2) (at level 60, right associativity).

(** [\d+\.\d+] *)
Definition decimal : regex := RPlus Digit +++ lit "." +++ RPlus Digit.

(** [\d{4}/\d{2}/\d{2}\s+\d{2}:\d{2}:\d{2}] *)
Definition timestamp : regex :=
  RRep 4 Digit +++ lit "/" +++ RRep 2 Digit +++ lit "/" +++ RRep 2 Digit
  +++ RPlus Space
  +++ RRep 2 Digit +++ lit ":" +++ RRep 2 Digit +++ lit ":" +++ RRep 2 Digit.

Definition pattern : regex :=
  lit "He" +++ RPlus Space +++ RGroup 1 decimal +++ RStar Space +++ lit "%"
  +++ RStar Space +++ lit "O2" +++ RPlus Space +++ RGroup 2 decimal
  +++ RStar Space +++ lit "%"
  +++ RStar Space +++ lit "Ti" +++ RPlus Space +++ RGroup 3 decimal
  +++ RStar Space +++ lit "~C" +++ RPlus Space +++ RGroup 4 decimal
  +++ RStar Space
  +++ lit "hPa" +++ RPlus Space +++ RGroup 5 timestamp.

(** [parse_data]: the helium group of the match, [None] without a match. *)
Definition parse_data (data : string) : option string :=
  match search pattern (list_ascii_of_string data) with
  | Some (_, _, caps) => Some (string_of_list_ascii (group 1 caps))
  | None => None
  end.

(** ** Serial devices

    What a serial port does when the application drives it.  [readline]
    stands for [readline().decode()]: it raises [SerialException] when the
    port fails and [ValueError] (the base class of [UnicodeDecodeError])
    when the bytes read are not text. *)

Record port_settings : Type := mkSettings {
  set_baudrate : Z;
  set_bytesize : Z;
  set_parity : string;
  set_stopbits : Z
}.

Record serial_device : Type := mkSerial {
  open : string -> result unit;
  apply_settings : port_settings -> result unit;
  flushInput : result unit;
  write : string -> result unit;
  readline : result string;
  flushOutput : result unit
}.

(** A device's row of the configuration table. *)
Record device_config : Type := mkConfig {
  port : string;
  baudrate : Z;
  bytesize : Z;
  parity : string;
  stopbits : Z;
  is_available : bool
}.

(** The carriage return that ends a command. *)
Definition CR : string := String (ascii_of_nat 13) EmptyString.

(** ** helium.py: read_from_serial *)

(** What the analyzer's port answers during one call: [in_waiting], and the
    decoded line that [readline] would deliver. *)
Record poll : Type := mkPoll {
  in_waiting : result Z;
  poll_readline : result string
}.

Definition parsed (o : option string) : pyval :=
  match o with
  | Some s => PStr s
  | None => PNone
  end.

(** [read_from_serial depth ser k]: the call that makes the [k]-th poll of
    the port, with [depth] stack frames left before Python's recursion limit
    is reached. *)
Fixpoint read_from_serial (depth : nat) (ser : nat -> poll) (k : nat)
  : result pyval :=
  match depth with
  | O => Raise RecursionError
  | S depth' =>
      try_except SerialException
        (n <- in_waiting (ser k) ;;
         if (n >? 0)%Z then
           data <- poll_readline (ser k) ;;
           Ok (parsed (parse_data (strip data)))
         else
           read_from_serial depth' ser (S k) ;;;
           Ok PNone)%res
        (Ok (PInt 0))
  end.

(** ** Python's [int] on 8-bit text

    Surrounding whitespace is dropped; an optional sign is followed by
    decimal digits, single underscores allowed between digits. *)

Definition digit_value (c : ascii) : Z := Z.of_nat (nat_of_ascii c - 48).

Fixpoint parse_digits (acc : Z) (after_digit : bool) (l : list ascii)
  : option Z :=
  match l with
  | [] => if after_digit then Some acc else None
  | c :: l' =>
      if is_digit c then parse_digits (acc * 10 + digit_value c) true l'
      else if Ascii.eqb c "_"
           then (if after_digit then parse_digits acc false l' else None)
           else None
  end.

Definition py_int (s : string) : result Z :=
  let t := list_ascii_of_string (strip s) in
  let signed :=
    match t with
    | c :: t' =>
        if Ascii.eqb c "-" then (true, t')
        else if Ascii.eqb c "+" then (false, t')
        else (false, t)
    | [] => (false, t)
    end in
  match parse_digits 0 false (snd signed) with
  | Some n => Ok (if fst signed then (- n)%Z else n)
  | None => Raise ValueError
  end.

(** ** HeliumLeakTestApp.py: get_power_on_time *)

Definition get_power_on_time (leakDetector_available : bool)
    (leakware_config : device_config) (serial_port_leak_detector : serial_device)
  : result Z :=
  if leakDetector_available then
    let setting_dict_leak_detector :=
      mkSettings (baudrate leakware_config) (bytesize leakware_config)
                 (parity leakware_config) (stopbits leakware_config) in
    try_except SerialException
      (open serial_port_leak_detector (port leakware_config) ;;;
       apply_settings serial_port_leak_detector setting_dict_leak_detector ;;;
       flushInput serial_port_leak_detector ;;;
       write serial_port_leak_detector ("*hour:pow?" ++ CR) ;;;
       time_pwron <-
         try_except ValueError
           (reply <- readline serial_port_leak_detector ;; py_int reply)
           (Ok 0%Z) ;;
       flushOutput serial_port_leak_detector ;;;
       Ok time_pwron)%res
      (Ok 0%Z)
  else Ok 0%Z.

(** ** check_serial.py: values compared during the scan *)

Definition INFICON_LEAK_DETECTOR_VID : Z := 1240.
Definition HELIUM_ANALYZER_VID : Z := 42496.
Definition SERIAL_PORT_VID : Z := 1027.

(** A port as [serial.tools.list_ports.comports] lists it; [vid] is [None]
    for a port that is not a USB device. *)
Record port_info : Type := mkPort {
  device : string;
  description : string;
  vid : option Z
}.

Definition vid_value (p : port_info) : pyval :=
  match vid p with
  | Some v => PInt v
  | None => PNone
  end.

(** [str(v)] *)
Definition py_str (v : pyval) : pyval :=
  match v with
  | PNone => PStr "None"
  | PInt z => PStr (DecimalString.NilZero.string_of_int (Z.to_int z))
  | PStr s => PStr s
  end.

(** [a == b]: values of different types are never equal. *)
Definition py_eq (a b : pyval) : bool :=
  match a, b with
  | PNone, PNone => true
  | PInt x, PInt y => Z.eqb x y
  | PStr s, PStr t => String.eqb s t
  | _, _ => false
  end.

(** ** check_serial.py: the state of a scan *)

(** What the scan prints when it recognises a device. *)
Inductive connection : Type :=
| RelaySwitchConnected (via : string)
| InficonUnitConnected (via : string)
| HeliumAnalyzerConnected (via : string)
| MassFlowControllerConnected (via : string)
| PressureGaugeConnected (via : string)
| DevicesTurnedOn.

Record scan_state : Type := mkScan {
  leak_detector : device_config;
  helium_analyzer : device_config;
  mass_flow_controller : device_config;
  relay_config : device_config;
  relay_switch : bool;
  printed : list connection
}.

Definition connect_via (via : string) (c : device_config) : device_config :=
  mkConfig via (baudrate c) (bytesize c) (parity c) (stopbits c) true.

Definition set_leak_detector (c : device_config) (s : scan_state) :=
  mkScan c (helium_analyzer s) (mass_flow_controller s) (relay_config s)
         (relay_switch s) (printed s).

Definition set_helium_analyzer (c : device_config) (s : scan_state) :=
  mkScan (leak_detector s) c (mass_flow_controller s) (relay_config s)
         (relay_switch s) (printed s).

Definition set_mass_flow_controller (c : device_config) (s : scan_state) :=
  mkScan (leak_detector s) (helium_analyzer s) c (relay_config s)
         (relay_switch s) (printed s).

Definition set_relay_config (c : device_config) (s : scan_state) :=
  mkScan (leak_detector s) (helium_analyzer s) (mass_flow_controller s) c
         (relay_switch s) (printed s).

Definition set_relay_switch (b : bool) (s : scan_state) :=
  mkScan (leak_detector s) (helium_analyzer s) (mass_flow_controller s)
         (relay_config s) b (printed s).

Definition log_connection (c : connection) (s : scan_state) :=
  mkScan (leak_detector s) (helium_analyzer s) (mass_flow_controller s)
         (relay_config s) (relay_switch s) (printed s ++ [c]).

(** ** check_serial.py: stop_gas_flow and get_serial_devices *)

Section CheckSerial.

(** The hardware behind the ports: whether the relay board answers on a
    port ([RelaySwitch.connect]), and the serial device at each port. *)
Variable relay_connect : string -> bool.
Variable serial_at : string -> serial_device.

Definition stop_gas_flow (port : string) : ST scan_state bool :=
  (s <- get ;;
   let mass_flow_config := mass_flow_controller s in
   let settingsdict_mass_flow_controller :=
     mkSettings (baudrate mass_flow_config) (bytesize mass_flow_config)
                (parity mass_flow_config) (stopbits mass_flow_config) in
   let mass_flow_controller := serial_at port in
   lift (try_except SerialException
           (open mass_flow_controller port ;;;
            apply_settings mass_flow_controller
              settingsdict_mass_flow_controller ;;;
            write mass_flow_controller ("*@=B" ++ CR) ;;;
            response <- readline mass_flow_controller ;;
            Ok (strip response =? "OK")%string)%res
           (Ok false)))%monad.

(** The first pass: [for port in ports] looking for the relay switch. *)
Fixpoint scan_for_relay (ports : list port_info) : ST scan_state unit :=
  match ports with
  | [] => ret tt
  | port :: ports' =>
      if py_eq (py_str (vid_value port)) (PInt SERIAL_PORT_VID) then
        (modify (set_relay_switch true) ;;;
         if relay_connect (device port) then
           modify (fun s =>
                     set_relay_config
                       (connect_via (strip (device port)) (relay_config s))
                       s) ;;;
           modify (log_connection (RelaySwitchConnected (strip (device port))))
         else scan_for_relay ports')%monad
      else scan_for_relay ports'
  end.

(** The body of the second pass for one port. *)
Definition classify (port : port_info) : ST scan_state unit :=
  (if py_eq (vid_value port) (PInt INFICON_LEAK_DETECTOR_VID) then
     modify (fun s => set_leak_detector
                        (connect_via (strip (device port)) (leak_detector s))
                        s) ;;;
     modify (log_connection (InficonUnitConnected (strip (device port))))
   else if py_eq (vid_value port) (PInt HELIUM_ANALYZER_VID) then
     modify (fun s => set_helium_analyzer
                        (connect_via (strip (device port))
                                     (helium_analyzer s)) s) ;;;
     modify (log_connection (HeliumAnalyzerConnected (strip (device port))))
   else if py_eq (vid_value port) (PInt SERIAL_PORT_VID) then
     stopped <- stop_gas_flow (device port) ;;
     if stopped then
       modify (fun s => set_mass_flow_controller
                          (connect_via (strip (device port))
                                       (mass_flow_controller s)) s) ;;;
       modify (log_connection (MassFlowControllerConnected (strip (device port))))
     else
       modify (log_connection (PressureGaugeConnected (strip (device port))))
   else ret tt)%monad.

(** The second pass: every port is listed, then classified. *)
Fixpoint scan_remaining (ports : list port_info)
  : ST scan_state (list (string * string)) :=
  match ports with
  | [] => ret []
  | port :: ports' =>
      (classify port ;;;
       devices <- scan_remaining ports' ;;
       ret ((description port, device port) :: devices))%monad
  end.

Definition get_serial_devices (ports : list port_info)
  : ST scan_state (list (string * string)) :=
  (modify (set_relay_switch false) ;;;
   scan_for_relay ports ;;;
   s <- get ;;
   (if relay_switch s then modify (log_connection DevicesTurnedOn) else ret tt) ;;;
   scan_remaining ports)%monad.

End CheckSerial.

(** ** helium.py: what the pattern matches *)

(** The text a regular expression matches, with the groups it records. *)
Inductive matches : regex -> list ascii -> captures -> captures -> Prop :=
| MLit l c : matches (RLit l) l c c
| MPlus cl m c :
    m <> [] -> Forall (fun x => in_class cl x = true) m ->
    matches (RPlus cl) m c c
| MStar cl m c :
    Forall (fun x => in_class cl x = true) m -> matches (RStar cl) m c c
| MRep n cl m c :
    length m = n -> Forall (fun x => in_class cl x = true) m ->
    matches (RRep n cl) m c c
| MSeq r1 r2 m1 m2 c c' c'' :
    matches r1 m1 c c' -> matches r2 m2 c' c'' ->
    matches (RSeq r1 r2) (m1 ++ m2) c c''
| MGroup i r m c c' :
    matches r m c c' -> matches (RGroup i r) m c ((i, m) :: c').

(** A text contains an analyzer line when some part of it matches the
    pattern. *)
Definition contains_line (data : string) : Prop :=
  exists pre line post c,
    list_ascii_of_string data = (pre ++ line ++ post)%list
    /\ matches pattern line [] c.

(** The groups an expression records. *)
Fixpoint groups (r : regex) : list nat :=
  match r with
  | RSeq r1 r2 => groups r1 ++ groups r2
  | RGroup i r' => i :: groups r'
  | _ => []
  end.

Fixpoint take_while (p : ascii -> bool) (l : list ascii) : list ascii :=
  match l with
  | x :: l' => if p x then x :: take_while p l' else []
  | [] => []
  end.

Fixpoint drop_while (p : ascii -> bool) (l : list ascii) : list ascii :=
  match l with
  | x :: l' => if p x then drop_while p l' else l
  | [] => []
  end.

(** The decimal number that follows ["He"] and whitespace at the start of a
    text. *)
Definition helium_text (s : list ascii) : list ascii :=
  let s := drop_while is_space (skipn 2 s) in
  let d := drop_while is_digit s in
  (take_while is_digit s ++ "."%char :: take_while is_digit (tl d))%list.

(** ** Sample device behaviour *)

Definition analyzer_line : string :=
  "He 23.5% O2 21.2% Ti 25.0~C 1012.3 hPa 2024/05/14 15:30:00".


(** A port that is idle at the first poll and has a line at the second. *)
Definition late_port (k : nat) : poll :=
  match k with
  | O => mkPoll (Ok 0%Z) (Ok "")
  | _ => mkPoll (Ok 61%Z) (Ok (analyzer_line ++ CR))
  end.



(** The settings dictionary built from a device's configuration. *)
Definition settings_of (c : device_config) : port_settings :=
  mkSettings (baudrate c) (bytesize c) (parity c) (stopbits c).

(** A device that answers every command and replies [reply]. *)
Definition answering (reply : string) : serial_device :=
  mkSerial (fun _ => Ok tt) (fun _ => Ok tt) (Ok tt) (fun _ => Ok tt)
           (Ok reply) (Ok tt).

Definition detector_config : device_config :=
  mkConfig "COM4" 19200 8 "N" 1 true.

(** The relay board: a port of vendor 1027 on which the relay answers and
    the stop-gas-flow command gets no ["OK"]. *)
Definition relay_port : port_info :=
  mkPort "COM3" "USB Serial Port" (Some 1027%Z).

Definition relay_board : serial_device := answering "".

Definition unconfigured : device_config := mkConfig "" 9600 8 "N" 1 false.

Definition fresh_scan : scan_state :=
  mkScan unconfigured unconfigured unconfigured unconfigured false [].

(** ** create_pdf.py: what a run leaves as it is *)

(** What identifies a measurement: everything but its two leak rates. *)
Definition same_identity (m m' : Measurement) : Prop :=
  panel_no m' = panel_no m /\ location_no m' = location_no m
  /\ time_in_seconds m' = time_in_seconds m
  /\ average_temperature m' = average_temperature m.

(** Two environments with the same report, the same specimens and
    measurements of the same identity. *)
Definition frame (e e' : Env) : Prop :=
  report_data e' = report_data e
  /\ specimens e' = specimens e
  /\ Forall2 same_identity (measurements_list e) (measurements_list e').

(** A computation that stays within the frame, whatever its outcome. *)
Definition framed {A} (m : M A) : Prop := forall e, frame e (snd (m e)).

(** A helium report in the unit the measurements are stored in. *)
Definition report_he_mbar : Report := mkReport "He" "" "" 0%R "Mbar*L/s" 0.

(** A measurement taken below zero degrees. *)
Definition frosty : Measurement :=
  mkMeasurement "1" "3" 20%R (PyFloat 0.002%R) (PyFloat 0.003%R) (-5)%R.

(** ** helium.py: read_data_from_helium *)

(** [Serial port baud_rate] opens the port: the polls it will answer, or
    the exception of the constructor. *)
Definition read_data_from_helium (depth : nat)
    (helium_analyzer_config : device_config)
    (Serial : string -> Z -> result (nat -> poll)) : result pyval :=
  let port := port helium_analyzer_config in
  if negb (port =? "")%string then
    try_except SerialException
      (let baud_rate := baudrate helium_analyzer_config in
       ser <- Serial port baud_rate ;;
       read_from_serial depth ser 0)%res
      (Ok PNone)
  else Ok PNone.

(** A port on which nothing ever arrives. *)
Definition idle_port (k : nat) : poll := mkPoll (Ok 0%Z) (Ok "").

Definition analyzer_config : device_config :=
  mkConfig "COM7" 9600 8 "N" 1 true.

(** A port that has the analyzer's line waiting. *)
Definition ready_port (k : nat) : poll :=
  mkPoll (Ok 61%Z) (Ok (analyzer_line ++ CR)).

(** A constructor that cannot open the port. *)
Definition failing_serial (port : string) (baud : Z) : result (nat -> poll) :=
  Raise SerialException.

(** ** check_serial.py: what a scan keeps *)

(** A device's configuration after a scan: the serial settings are the
    same and the device has not become unavailable. *)
Definition settings_kept (c c' : device_config) : Prop :=
  baudrate c' = baudrate c /\ bytesize c' = bytesize c
  /\ parity c' = parity c /\ stopbits c' = stopbits c
  /\ (is_available c = true -> is_available c' = true).

Definition scan_kept (s s' : scan_state) : Prop :=
  settings_kept (leak_detector s) (leak_detector s')
  /\ settings_kept (helium_analyzer s) (helium_analyzer s')
  /\ settings_kept (mass_flow_controller s) (mass_flow_controller s')
  /\ relay_config s' = relay_config s.

(** The last listed port with the vendor ID [v]. *)
Definition last_with_vid (v : Z) (ports : list port_info) : option port_info :=
  find (fun p => py_eq (vid_value p) (PInt v)) (rev ports).

(** The port a device ends up on. *)
Definition connected_to (found : option port_info) (c : device_config)
  : device_config :=
  match found with
  | Some p => connect_via (strip (device p)) c
  | None => c
  end.

(** A device whose reply cannot be decoded. *)
Definition garbling : serial_device :=
  mkSerial (fun _ => Ok tt) (fun _ => Ok tt) (Ok tt) (fun _ => Ok tt)
           (Raise ValueError) (Ok tt).

Definition detector_port : port_info :=
  mkPort "COM4 " "Inficon" (Some 1240%Z).

Definition second_detector_port : port_info :=
  mkPort "COM9" "Inficon" (Some 1240%Z).

Definition analyzer_port : port_info :=
  mkPort "COM7" "Analyzer" (Some 42496%Z).

(** ** HeliumLeakTestApp.py: the warm-up timer *)

(** The functions that the application hands to [root.after]. *)
Inductive callback : Type :=
| UpdateTimer
| DisplayActiveMessage.

(** The widgets and globals of the start window that the timer touches:
    the global [remaining_time], the text of [timer_label], whether
    [timer_frame] and [message_frame] are placed, whether the two test
    buttons are enabled, and the calls of [root.after] made so far (delay
    in milliseconds, callback). *)
Record window : Type := mkWindow {
  remaining_time : Z;
  timer_label : string;
  timer_frame_placed : bool;
  tests_enabled : bool;
  message_placed : bool;
  scheduled : list (Z * callback)
}.

(** [f"{n:02}"] for an integer. *)
Definition format_02 (n : Z) : string :=
  let s := DecimalString.NilZero.string_of_int (Z.to_int n) in
  if (String.length s <? 2)%nat then "0" ++ s else s.

Definition display_active_message (w : window) : window :=
  mkWindow (remaining_time w) (timer_label w) (timer_frame_placed w)
           (tests_enabled w) false (scheduled w).

Definition stop_timer (w : window) : window :=
  mkWindow (remaining_time w) (timer_label w) false true true
           (scheduled w ++ [(5000%Z, DisplayActiveMessage)]).

Definition update_timer (w : window) : window :=
  if (remaining_time w <=? 0)%Z then stop_timer w
  else
    let minutes := (remaining_time w / 60)%Z in
    let seconds := (remaining_time w mod 60)%Z in
    let timer_text := format_02 minutes ++ ":" ++ format_02 seconds in
    mkWindow (remaining_time w - 1) timer_text (timer_frame_placed w)
             (tests_enabled w) (message_placed w)
             (scheduled w ++ [(1000%Z, UpdateTimer)]).

(** The start window when the main loop starts, [remaining_time] being
    computed from the detector's power-on time. *)
Definition start_window (time_pwron : Z) : window :=
  mkWindow ((20 - time_pwron) * 60) "" true false false [].

(** ** create_pdf.py: create_graphs *)

(** The exceptions of the drawing code: those of the data path, and the
    ones that indexing a list and calling a method of [None] raise. *)
Inductive drawing_exn : Type :=
| DataError (x : exn)
| IndexError
| AttributeError
| FileNotFoundError.

Inductive drawn (A : Type) : Type :=
| Drawn (a : A)
| Failed (x : drawing_exn).

Arguments Drawn {A} a.
Arguments Failed {A} x.

(** One call of [plot]: the x values, the y values and the label. *)
Record curve : Type := mkCurve {
  curve_x : list R;
  curve_y : list pynum;
  curve_label : string
}.

Record figure : Type := mkFigure {
  fig_title : string;
  fig_xlabel : string;
  fig_ylabel : string;
  fig_yscale : option string;
  fig_curves : list curve
}.

(** [str(i)] for a count. *)
Definition str_nat (i : nat) : string :=
  DecimalString.NilZero.string_of_int (Z.to_int (Z.of_nat i)).

(** [l[:-1]] *)
Definition all_but_last {A} (l : list A) : list A := removelast l.

(** The loop of graph type 0: [i] counts the series plotted so far. *)
Fixpoint plot_specimens (i : nat) (element_listx : list (list R))
    (element_listy : list (list pynum)) : drawn (list curve) :=
  match element_listy with
  | [] => Drawn []
  | element_no_in_listy :: rest =>
      match nth_error element_listx i with
      | None => Failed IndexError
      | Some element_no_in_listx =>
          let i := S i in
          match plot_specimens i element_listx rest with
          | Drawn curves =>
              Drawn (mkCurve (all_but_last element_no_in_listx)
                             (all_but_last element_no_in_listy)
                             ("specimen " ++ str_nat i) :: curves)
          | Failed x => Failed x
          end
      end
  end.

(** [max] over the elements after the first, [best] being the largest so
    far: a later element replaces it when it is greater; comparing a complex
    number raises [TypeError]. *)
Fixpoint max_from (best : pynum) (l : list pynum) : result pynum :=
  match l with
  | [] => Ok best
  | v :: l' =>
      match v, best with
      | PyFloat x, PyFloat b =>
          max_from (if Rlt_dec b x then v else best) l'
      | _, _ => Raise TypeError
      end
  end.

(** [max(l)]: [ValueError] on an empty list. *)
Definition py_max (l : list pynum) : result pynum :=
  match l with
  | [] => Raise ValueError
  | v :: l' => max_from v l'
  end.

(** The loop of graph type 1. *)
Fixpoint highest_values (element_listy : list (list pynum))
  : result (list pynum) :=
  match element_listy with
  | [] => Ok []
  | element_no_in_listy :: rest =>
      match py_max element_no_in_listy with
      | Ok v =>
          match highest_values rest with
          | Ok vs => Ok (v :: vs)
          | Raise x => Raise x
          end
      | Raise x => Raise x
      end
  end.

(** [create_graphs]: the figure, or [None] for a graph type other than 0
    and 1. *)
Definition create_graphs (graph_type : Z) (element_listx : list (list R))
    (element_listy : list (list pynum)) : drawn (option figure) :=
  if (graph_type =? 0)%Z then
    match plot_specimens 0 element_listx element_listy with
    | Drawn curves =>
        Drawn (Some (mkFigure "Course of the measurements" "Time [s]"
                              "Leakrate [mbarˑl/s]" (Some "symlog") curves))
    | Failed x => Failed x
    end
  else if (graph_type =? 1)%Z then
    match highest_values element_listy with
    | Ok highest =>
        let x_values := map INR (seq 1 (length highest)) in
        Drawn (Some (mkFigure "Trend of Highest Leak rates"
                              "Specimen/Location"
                              "Highest Leakrate [mbarˑl/s]" None
                              [mkCurve x_values highest "specimen"]))
    | Raise x => Failed (DataError x)
    end
  else Drawn None.


(** A y-series with as many points as the specimen's stored series. *)
Definition same_shape (sp : Specimen) (ys : list pynum) : Prop :=
  length ys = length (y_value sp).

(** The largest of a list of floats. *)
Definition is_highest (v : pynum) (l : list pynum) : Prop :=
  In v l /\ Forall (fun y => py_le y v) l.

(** ** create_pdf.py: the graphs of the report and the temporary files *)

Section GraphFiles.

(** The document under construction and the operations of the PDF library
    that this part of [create_pdf] calls. *)
Variable pdf : Type.
Variable get_y : pdf -> R.
Variable add_page : pdf -> pdf.
Variable image : string -> R -> R -> R -> R -> pdf -> pdf.

(** What this part of [create_pdf] works on: the document, the files of
    the working directory and of [Data], the local [graph_location], and
    the files handed to [os.startfile]. *)
Record desk : Type := mkDesk {
  doc : pdf;
  files : string -> bool;
  graph_location : R;
  started : list string
}.

Definition draw (A : Type) : Type := desk -> drawn A * desk.

Definition dret {A} (a : A) : draw A := fun d => (Drawn a, d).

Definition dbind {A B} (m : draw A) (k : A -> draw B) : draw B :=
  fun d =>
    match m d with
    | (Drawn a, d') => k a d'
    | (Failed x, d') => (Failed x, d')
    end.

Definition dfail {A} (x : drawing_exn) : draw A := fun d => (Failed x, d).

Definition dmodify (f : desk -> desk) : draw unit := fun d => (Drawn tt, f d).

Definition dget : draw desk := fun d => (Drawn d, d).

Definition written (name : string) (fs : string -> bool) : string -> bool :=
  fun n => if (n =? name)%string then true else fs n.

Definition removed (name : string) (fs : string -> bool) : string -> bool :=
  fun n => if (n =? name)%string then false else fs n.

Definition set_files (fs : string -> bool) (d : desk) : desk :=
  mkDesk (doc d) fs (graph_location d) (started d).

Definition set_doc (p : pdf) (d : desk) : desk :=
  mkDesk p (files d) (graph_location d) (started d).

Definition set_graph_location (y : R) (d : desk) : desk :=
  mkDesk (doc d) (files d) y (started d).

(** [fig.savefig(name)], [fig] being what [create_graphs] returned. *)
Definition savefig (fig : drawn (option figure)) (name : string) : draw unit :=
  match fig with
  | Failed x => dfail x
  | Drawn None => dfail AttributeError
  | Drawn (Some _) => dmodify (fun d => set_files (written name (files d)) d)
  end.

(** [Image.open(name)], [rotate(0, expand=True)] and [save(name)]. *)
Definition reopen (name : string) : draw unit :=
  dbind dget (fun d =>
    if files d name
    then dmodify (fun d => set_files (written name (files d)) d)
    else dfail FileNotFoundError).

(** [pdf.image(name, 1, graph_location, width - 70, height - 20)] *)
Definition place (name : string) : draw unit :=
  dmodify (fun d =>
    set_doc (image name 1%R (graph_location d) (270 - 70)%R (85 - 20)%R (doc d))
            d).

(** [os.remove(name)] *)
Definition os_remove (name : string) : draw unit :=
  dbind dget (fun d =>
    if files d name
    then dmodify (fun d => set_files (removed name (files d)) d)
    else dfail FileNotFoundError).

Declare Scope draw_scope.
Delimit Scope draw_scope with draw.
Notation "m ;;; k" := (dbind m (fun _ => k))
  (at level 61, right associativity) : draw_scope.

(** The statements of [create_pdf] from the graphs to the end. *)
Definition graphs_and_cleanup (graph_type : Z)
    (element_listx : list (list R)) (element_listy : list (list pynum))
    (pdf_data_path : string) : draw unit :=
  ((if negb (graph_type =? 2)%Z then
     savefig (create_graphs graph_type element_listx element_listy) "tmp.png" ;;;
     reopen "tmp.png" ;;;
     place "tmp.png"
   else
     savefig (create_graphs 0 element_listx element_listy) "tmp.png" ;;;
     reopen "tmp.png" ;;;
     place "tmp.png" ;;;
     dbind dget (fun d =>
       if Rlt_dec 105 (get_y (doc d)) then
         dmodify (fun d => set_doc (add_page (doc d)) d) ;;;
         dmodify (set_graph_location 15%R)
       else
         dmodify (fun d => set_graph_location (graph_location d + 70)%R d)) ;;;
     savefig (create_graphs 1 element_listx element_listy) "tmp1.png" ;;;
     reopen "tmp1.png" ;;;
     place "tmp1.png") ;;;
  dmodify (fun d => set_files (written pdf_data_path (files d)) d) ;;;
  dmodify (fun d => mkDesk (doc d) (files d) (graph_location d)
                           (started d ++ [pdf_data_path])) ;;;
  (if (graph_type =? 0)%Z || (graph_type =? 2)%Z
   then os_remove "tmp.png" else dret tt) ;;;
  (if (graph_type =? 1)%Z || (graph_type =? 2)%Z
   then dbind dget (fun d =>
          if files d "tmp1.png" then os_remove "tmp1.png" else dret tt)
   else dret tt))%draw.

End GraphFiles.

(** A working directory without files and a document of which nothing is
    recorded. *)
Definition blank_desk : desk unit := mkDesk tt (fun _ => false) 135%R [].

(** ** helium.py: whitespace around a line *)

(** A run of whitespace characters. *)
Definition spaces (l : list ascii) : Prop :=
  Forall (fun x => is_space x = true) l.

(** * Properties *)

(** ** Running monadic code *)

Section Run.
Context {S A B : Type}.

Lemma bind_get (k : S -> ST S B) (s : S) : bind get k s = k s s.
Proof. reflexivity. Qed.

Lemma bind_modify (f : S -> S) (k : unit -> ST S B) (s : S) :
  bind (modify f) k s = k tt (f s).
Proof. reflexivity. Qed.

Lemma bind_put (s' : S) (k : unit -> ST S B) (s : S) :
  bind (put s') k s = k tt s'.
Proof. reflexivity. Qed.

Lemma bind_ret (a : A) (k : A -> ST S B) (s : S) : bind (ret a) k s = k a s.
Proof. reflexivity. Qed.

Lemma bind_lift_ok (a : A) (k : A -> ST S B) (s : S) :
  bind (lift (Ok a)) k s = k a s.
Proof. reflexivity. Qed.

Lemma bind_run (m : ST S A) (k : A -> ST S B) (s s' : S) (a : A) :
  m s = (Ok a, s') -> bind m k s = k a s'.
Proof. intros H. unfold bind. now rewrite H. Qed.

Lemma bind_raise (m : ST S A) (k : A -> ST S B) (s s' : S) (x : exn) :
  m s = (Raise x, s') -> bind m k s = (Raise x, s').
Proof. intros H. unfold bind. now rewrite H. Qed.
End Run.

Lemma bind_assoc {S A B C} (m : ST S A) (f : A -> ST S B) (g : B -> ST S C)
    (s : S) :
  bind (bind m f) g s = bind m (fun a => bind (f a) g) s.
Proof. unfold bind. destruct (m s) as [[a|x] s']; reflexivity. Qed.

(** ** convert_he_to_air *)

Section ConvertHeToAir.
Local Open Scope R_scope.

Lemma delta_p_simpl (p : R) :
  ((p + 1) ^ 2 - PB2 ^ 2) / (PA1 ^ 2 - PA2 ^ 2) = p * (p + 2).
Proof.
  unfold PB2, PA1, PA2.
  replace 1.0 with 1 by lra. replace 0.0 with 0 by lra. field.
Qed.


(** The conversion of a float returns [air_leak_rate] and leaves the
    environment as it was. *)
Lemma convert_he_to_air_value (h T : R) (e : Env) :
  convert_he_to_air (PyFloat h) T e
  = (Ok (air_leak_rate (report_data e) h T), e).
Proof.
  cbv beta match zeta delta
      [convert_he_to_air bind get lift ret py_float air_leak_rate].
  rewrite delta_p_simpl.
  destruct (rate_unit (report_data e) =? "SCCM")%string; reflexivity.
Qed.

Lemma convert_he_to_air_state (v : pynum) (T : R) (e : Env) :
  snd (convert_he_to_air v T e) = e.
Proof.
  destruct v as [h|re im].
  - now rewrite convert_he_to_air_value.
  - reflexivity.
Qed.

(** C1, as amended.  With a pressure difference of zero and a rate unit
    other than SCCM, [convert_he_to_air] returns the helium leak rate
    multiplied by the viscosity ratio [ETA_HE / ETA_AIR], whatever the
    temperature, and leaves the environment unchanged. *)
Theorem zero_pressure_reduces_to_viscosity_ratio (e : Env) (h T : R) :
  pressure_difference (report_data e) = 0 ->
  rate_unit (report_data e) <> "SCCM"%string ->
  convert_he_to_air (PyFloat h) T e
  = (Ok (PyFloat (h * (ETA_HE / ETA_AIR))), e).
Proof.
  intros Hp Hu. rewrite convert_he_to_air_value.
  unfold air_leak_rate. cbv zeta. rewrite Hp.
  apply String.eqb_neq in Hu. rewrite Hu.
  destruct (Rlt_dec 0 (0 * (0 + 2))) as [H|H]; [lra | reflexivity].
Qed.

Lemma zero_pressure_cm3_min_witness :
  convert_he_to_air (PyFloat 2) 293 (env_with_pressure 0)
  = (Ok (PyFloat (2 * (ETA_HE / ETA_AIR))), env_with_pressure 0).
Proof.
  apply zero_pressure_reduces_to_viscosity_ratio; simpl;
    [reflexivity | discriminate].
Defined.

(** C1 as stated fails: with the rate unit SCCM, a pressure difference of
    zero and the temperature [T1], the helium leak rate 1 is converted to
    60 times the viscosity ratio. *)
Lemma zero_pressure_sccm_counterexample :
  pressure_difference (report_data env_sccm) = 0
  /\ fst (convert_he_to_air (PyFloat 1) 273 env_sccm)
     = Ok (PyFloat (60 * (ETA_HE / ETA_AIR)))
  /\ fst (convert_he_to_air (PyFloat 1) 273 env_sccm)
     <> Ok (PyFloat (1 * (ETA_HE / ETA_AIR))).
Proof.
  assert (E : fst (convert_he_to_air (PyFloat 1) 273 env_sccm)
              = Ok (PyFloat (60 * (ETA_HE / ETA_AIR)))).
  { rewrite convert_he_to_air_value. unfold air_leak_rate. simpl.
    destruct (Rlt_dec 0 (0 * (0 + 2))) as [H|_]; [lra|].
    unfold py_pow_half, T1.
    replace (273 / 273.0) with 1 by lra.
    destruct (Rle_dec 0 1) as [_|H]; [|lra].
    rewrite sqrt_1. simpl. do 2 f_equal. lra. }
  split; [reflexivity|]. split; [exact E|].
  rewrite E. intros H. injection H as H.
  unfold ETA_HE, ETA_AIR in H. lra.
Qed.




(** C7.  [convert_he_to_air] is deterministic and stateless: in two
    environments with the same pressure difference and rate unit, equal
    leak rates and temperatures give equal results, and each call leaves
    its environment as it found it. *)
Theorem convert_he_to_air_deterministic (e1 e2 : Env) (h : pynum) (T : R) :
  pressure_difference (report_data e1) = pressure_difference (report_data e2) ->
  rate_unit (report_data e1) = rate_unit (report_data e2) ->
  fst (convert_he_to_air h T e1) = fst (convert_he_to_air h T e2)
  /\ snd (convert_he_to_air h T e1) = e1
  /\ snd (convert_he_to_air h T e2) = e2.
Proof.
  intros Hp Hu. split; [|split; apply convert_he_to_air_state].
  destruct h as [x|re im].
  - rewrite !convert_he_to_air_value. unfold air_leak_rate. simpl.
    rewrite Hp, Hu. reflexivity.
  - reflexivity.
Qed.

Lemma two_environments_witness :
  fst (convert_he_to_air (PyFloat 3) 293 env_a)
  = fst (convert_he_to_air (PyFloat 3) 293 env_b)
  /\ snd (convert_he_to_air (PyFloat 3) 293 env_a) = env_a
  /\ snd (convert_he_to_air (PyFloat 3) 293 env_b) = env_b.
Proof.
  apply convert_he_to_air_deterministic; reflexivity.
Defined.

End ConvertHeToAir.


(** ** get_elem_direction_value *)

(** C3.  [get_elem_direction_value] returns the documented label for each
    of the codes ["0"] to ["5"] and the empty string for every other
    string. *)
Theorem get_elem_direction_value_labels :
  get_elem_direction_value "0" = "Nut facing upwards"
  /\ get_elem_direction_value "1" = "Nut facing downwards"
  /\ get_elem_direction_value "2" = "Capnut facing upwards"
  /\ get_elem_direction_value "3" = "Capnut facing downwards"
  /\ get_elem_direction_value "4" = "Bolt facing upwards"
  /\ get_elem_direction_value "5" = "Bolt facing downwards"
  /\ forall direction : string,
      direction <> "0" -> direction <> "1" -> direction <> "2" ->
      direction <> "3" -> direction <> "4" -> direction <> "5" ->
      get_elem_direction_value direction = "".
Proof.
  repeat (split; [reflexivity|]).
  intros d H0 H1 H2 H3 H4 H5. unfold get_elem_direction_value.
  apply String.eqb_neq in H0, H1, H2, H3, H4, H5.
  rewrite H0, H1, H2, H3, H4, H5. reflexivity.
Qed.

Lemma unknown_direction_witness :
  get_elem_direction_value "6" = "" /\ get_elem_direction_value "00" = "".
Proof.
  split; apply get_elem_direction_value_labels; discriminate.
Defined.

(** ** The loops of create_pdf *)

Section CreatePdf.
Local Open Scope R_scope.

Lemma update_nth_app {A} (f : A -> A) (l1 : list A) (x : A) (l2 : list A) :
  update_nth (length l1) f (l1 ++ x :: l2) = (l1 ++ f x :: l2)%list.
Proof. induction l1 as [|y l1 IH]; simpl; [reflexivity | now rewrite IH]. Qed.

Lemma nth_error_middle {A} (l1 : list A) (x : A) (l2 : list A) :
  nth_error (l1 ++ x :: l2) (length l1) = Some x.
Proof. induction l1; simpl; auto. Qed.

Lemma read_measurement_eq (e : Env) (i : nat) (m : Measurement) :
  measurement e = Some i ->
  nth_error (measurements_list e) i = Some m ->
  read_measurement e = (Ok m, e).
Proof.
  intros Hi Hm. unfold read_measurement. rewrite bind_get, Hi, Hm. reflexivity.
Qed.

Lemma write_measurement_eq (f : Measurement -> Measurement) (e : Env) (i : nat) :
  measurement e = Some i ->
  write_measurement f e =
  (Ok tt, set_measurements_list (update_nth i f (measurements_list e)) e).
Proof.
  intros Hi. unfold write_measurement. rewrite bind_get, Hi. reflexivity.
Qed.

Ltac run_step :=
  rewrite ?bind_assoc;
  first
    [ rewrite bind_get
    | rewrite bind_modify
    | rewrite bind_put
    | rewrite bind_ret
    | erewrite bind_run
        by (eapply read_measurement_eq;
            [reflexivity | simpl; apply nth_error_middle])
    | erewrite bind_run by (eapply write_measurement_eq; reflexivity)
    | erewrite bind_run by apply convert_he_to_air_value ];
  cbv beta; simpl; rewrite ?update_nth_app.

Ltac env_simpl :=
  cbn [set_flag set_df_list set_measurement set_measurements_list
       set_element_listx set_element_listy
       measurements_list report_data specimens measurement flag df_list
       element_listx element_listy].

(** One iteration of the conversion loop replaces its measurement by the
    converted one and does not break. *)
Lemma convert_measurement_eq (e : Env) (done todo : list Measurement)
    (m : Measurement) :
  measurement e = Some (length done) ->
  measurements_list e = (done ++ m :: todo)%list ->
  floats m ->
  rate_unit (report_data e) = "cm³/min"%string
  \/ test_medium (report_data e) = "Air"%string ->
  convert_measurement e =
  (Ok false,
   set_flag false
     (set_measurements_list
        (done ++ converted (report_data e) m :: todo)%list e)).
Proof.
  destruct e as [rd sps ms mv fl df gx gy]; simpl.
  intros -> -> Hm Hcase.
  destruct m as [pn ln t v mx T]; destruct Hm as [Hv Hmx]; simpl in Hv, Hmx.
  destruct v as [v|]; [|contradiction]. destruct mx as [mx|]; [|contradiction].
  unfold convert_measurement, converted, to_minutes, to_air.
  run_step.
  destruct (rate_unit rd =? "cm³/min")%string eqn:Eu;
    destruct (test_medium rd =? "Air")%string eqn:Em.
  4: { destruct Hcase as [H|H]; rewrite H in *; discriminate. }
  all: repeat (run_step; rewrite ?Em); reflexivity.
Qed.

Lemma for_measurement_convert (todo done : list Measurement) (e : Env) :
  Forall floats todo ->
  measurements_list e = (done ++ todo)%list ->
  rate_unit (report_data e) = "cm³/min"%string
  \/ test_medium (report_data e) = "Air"%string ->
  for_measurement convert_measurement (seq (length done) (length todo)) e =
  (Ok tt,
   match todo with
   | [] => e
   | _ :: _ =>
       set_flag false
         (set_measurements_list
            (done ++ map (converted (report_data e)) todo)%list
            (set_measurement (Some (length done + length todo - 1)%nat) e))
   end).
Proof.
  revert done e. induction todo as [|m todo IH]; intros done e Hf Hms Hcase.
  - reflexivity.
  - inversion Hf as [|? ? Hm Hf']; subst.
    cbn [length seq for_measurement].
    rewrite bind_modify.
    erewrite bind_run; cycle 1.
    { apply convert_measurement_eq with (done := done) (todo := todo);
        [reflexivity | destruct e; exact Hms | exact Hm
        | destruct e; exact Hcase]. }
    cbv beta iota.
    specialize (IH (done ++ [converted (report_data e) m])%list).
    rewrite length_app in IH. cbn [length] in IH.
    replace (length done + 1)%nat with (S (length done)) in IH by lia.
    rewrite IH; [| exact Hf' | destruct e; simpl; now rewrite <- app_assoc
                 | destruct e; exact Hcase ].
    destruct e as [rd sps ms mv fl df gx gy]; simpl in *.
    destruct todo as [|m' todo]; simpl.
    + replace (length done + 1 - 1)%nat with (length done) by lia.
      reflexivity.
    + unfold set_flag, set_measurements_list, set_measurement; simpl.
      rewrite <- app_assoc. simpl. f_equal. f_equal. f_equal. lia.
Qed.

Lemma for_measurement_convert_all (l : list Measurement) (e : Env) :
  l <> [] ->
  Forall floats l ->
  measurements_list e = l ->
  rate_unit (report_data e) = "cm³/min"%string
  \/ test_medium (report_data e) = "Air"%string ->
  for_measurement convert_measurement (seq 0 (length l)) e =
  (Ok tt,
   set_flag false
     (set_measurements_list (map (converted (report_data e)) l)
        (set_measurement (Some (length l - 1)%nat) e))).
Proof.
  intros Hne Hf Hms Hcase.
  pose proof (@for_measurement_convert l [] e Hf Hms Hcase) as H.
  cbn [length app plus] in H. rewrite H.
  destruct l; [contradiction | reflexivity].
Qed.

Lemma append_row_eq (e : Env) (done todo : list Measurement) (m : Measurement) :
  measurement e = Some (length done) ->
  measurements_list e = (done ++ m :: todo)%list ->
  is_float (max_value m) ->
  append_row e = (Ok false, set_df_list (df_list e ++ [row m]) e).
Proof.
  destruct e as [rd sps ms mv fl df gx gy]; simpl.
  intros -> -> Hm. unfold append_row, row.
  destruct (max_value m) as [mx|] eqn:E; [|contradiction].
  run_step. rewrite E. cbn [py_float]. rewrite bind_lift_ok. repeat run_step.
  reflexivity.
Qed.

Lemma for_measurement_append_row (todo done : list Measurement) (e : Env) :
  Forall (fun m => is_float (max_value m)) todo ->
  measurements_list e = (done ++ todo)%list ->
  for_measurement append_row (seq (length done) (length todo)) e =
  (Ok tt,
   match todo with
   | [] => e
   | _ :: _ =>
       set_df_list (df_list e ++ map row todo)
         (set_measurement (Some (length done + length todo - 1)%nat) e)
   end).
Proof.
  revert done e. induction todo as [|m todo IH]; intros done e Hf Hms.
  - reflexivity.
  - inversion Hf as [|? ? Hm Hf']; subst.
    cbn [length seq for_measurement].
    rewrite bind_modify.
    erewrite bind_run; cycle 1.
    { apply append_row_eq with (done := done) (todo := todo);
        [reflexivity | destruct e; exact Hms | exact Hm]. }
    cbv beta iota.
    specialize (IH (done ++ [m])%list).
    rewrite length_app in IH. cbn [length] in IH.
    replace (length done + 1)%nat with (S (length done)) in IH by lia.
    rewrite IH; [| exact Hf' | destruct e; simpl in *; now rewrite <- app_assoc].
    destruct e as [rd sps ms mv fl df gx gy]; simpl in *.
    destruct todo as [|m' todo]; simpl.
    + replace (length done + 1 - 1)%nat with (length done) by lia.
      reflexivity.
    + unfold set_df_list, set_measurement; simpl.
      rewrite <- app_assoc. simpl. f_equal. f_equal. f_equal. lia.
Qed.

Lemma for_measurement_append_row_all (l : list Measurement) (e : Env) :
  l <> [] ->
  Forall (fun m => is_float (max_value m)) l ->
  measurements_list e = l ->
  for_measurement append_row (seq 0 (length l)) e =
  (Ok tt,
   set_df_list (df_list e ++ map row l)
     (set_measurement (Some (length l - 1)%nat) e)).
Proof.
  intros Hne Hf Hms.
  pose proof (@for_measurement_append_row l [] e Hf Hms) as H.
  cbn [length app plus] in H. rewrite H.
  destruct l; [contradiction | reflexivity].
Qed.

(** ** load_data_from_database_pdf *)

Lemma convert_y_value_eq (e : Env) (i : nat) (m : Measurement) (y : R) :
  measurement e = Some i ->
  nth_error (measurements_list e) i = Some m ->
  convert_y_value y e =
  (Ok (presented (report_data e) (average_temperature m) y), e).
Proof.
  intros Hi Hm. unfold convert_y_value, presented.
  rewrite bind_get. cbv beta zeta.
  destruct (test_medium (report_data e) =? "Air")%string.
  - erewrite bind_run by (eapply read_measurement_eq; eassumption).
    apply convert_he_to_air_value.
  - reflexivity.
Qed.

Lemma convert_y_value_helium (e : Env) (y : R) :
  test_medium (report_data e) <> "Air"%string ->
  convert_y_value y e = (Ok (presented (report_data e) 0 y), e).
Proof.
  intros H. apply String.eqb_neq in H. unfold convert_y_value, presented.
  rewrite bind_get. cbv beta zeta. rewrite H. reflexivity.
Qed.

Lemma convert_y_value_unbound (e : Env) (y : R) :
  test_medium (report_data e) = "Air"%string ->
  measurement e = None ->
  convert_y_value y e = (Raise NameError, e).
Proof.
  intros H Hm. unfold convert_y_value.
  rewrite bind_get. cbv beta zeta. rewrite H. simpl.
  unfold read_measurement. rewrite bind_assoc, bind_get, Hm. reflexivity.
Qed.

Lemma convert_y_values_eq (f : R -> pynum) (e : Env) (ys : list R) :
  (forall y, convert_y_value y e = (Ok (f y), e)) ->
  convert_y_values ys e = (Ok (map f ys), e).
Proof.
  intros H. induction ys as [|y ys IH]; [reflexivity|].
  cbn [convert_y_values map].
  erewrite bind_run by apply H. erewrite bind_run by apply IH. reflexivity.
Qed.

Lemma load_specimens_eq (f : R -> pynum) (sps : list Specimen) (e : Env) :
  (forall y gx gy,
      convert_y_value y (set_element_listx gx (set_element_listy gy e))
      = (Ok (f y), set_element_listx gx (set_element_listy gy e))) ->
  load_specimens sps e =
  (Ok tt,
   set_element_listx (element_listx e ++ map (@x_value) sps)
     (set_element_listy
        (element_listy e ++ map (fun sp => map f (y_value sp)) sps) e)).
Proof.
  intros H. revert e H. induction sps as [|sp sps IH]; intros e H.
  - simpl. rewrite !app_nil_r. destruct e; reflexivity.
  - cbn [load_specimens map].
    erewrite bind_run; cycle 1.
    { apply convert_y_values_eq with (f := f). intros y.
      specialize (H y (element_listx e) (element_listy e)).
      destruct e; exact H. }
    rewrite !bind_modify.
    rewrite IH.
    + destruct e; simpl. unfold set_element_listx, set_element_listy; simpl.
      now rewrite <- !app_assoc.
    + intros y gx gy. specialize (H y gx gy). destruct e; exact H.
Qed.

Lemma load_data_from_database_pdf_eq (f : R -> pynum) (e : Env) :
  (forall y gx gy,
      convert_y_value y (set_element_listx gx (set_element_listy gy e))
      = (Ok (f y), set_element_listx gx (set_element_listy gy e))) ->
  load_data_from_database_pdf e =
  (Ok tt,
   set_element_listx (map (@x_value) (specimens e))
     (set_element_listy
        (map (fun sp => map f (y_value sp)) (specimens e)) e)).
Proof.
  intros H. unfold load_data_from_database_pdf.
  rewrite !bind_modify, bind_get.
  rewrite load_specimens_eq with (f := f).
  - destruct e; reflexivity.
  - intros y gx gy. specialize (H y gx gy). destruct e; exact H.
Qed.

Lemma load_specimens_unbound (sps : list Specimen) (e : Env) :
  test_medium (report_data e) = "Air"%string ->
  measurement e = None ->
  (exists sp, In sp sps /\ y_value sp <> []) ->
  fst (load_specimens sps e) = Raise NameError.
Proof.
  revert e. induction sps as [|sp sps IH]; intros e Hair Hm (sp' & Hin & Hy).
  - contradiction.
  - cbn [load_specimens].
    destruct (y_value sp) as [|y ys] eqn:Ey.
    + cbn [convert_y_values]. rewrite bind_ret, !bind_modify.
      apply IH.
      * destruct e; exact Hair.
      * destruct e; exact Hm.
      * destruct Hin as [<-|Hin]; [congruence|]. exists sp'. auto.
    + cbn [convert_y_values]. rewrite bind_assoc.
      erewrite bind_raise by (apply convert_y_value_unbound; assumption).
      reflexivity.
Qed.

(** ** create_pdf *)

Lemma converted_temperature (rd : Report) (m : Measurement) :
  average_temperature (converted rd m) = average_temperature m.
Proof.
  unfold converted, to_air, to_minutes.
  destruct (rate_unit rd =? "cm³/min")%string,
           (test_medium rd =? "Air")%string; simpl;
    try reflexivity;
    destruct (max_value m), (value_mbarl_second m); reflexivity.
Qed.

Lemma air_leak_rate_float (rd : Report) (h T : R) :
  (rate_unit rd = "SCCM"%string -> 0 <= T) ->
  is_float (air_leak_rate rd h T).
Proof.
  intros H. unfold air_leak_rate. cbv zeta.
  destruct (rate_unit rd =? "SCCM")%string eqn:E; [|exact I].
  apply String.eqb_eq in E. specialize (H E).
  unfold py_pow_half.
  destruct (Rle_dec 0 (T / T1)) as [_|Hn]; [exact I|].
  exfalso. apply Hn. unfold T1. apply Rmult_le_pos; [exact H|].
  left. apply Rinv_0_lt_compat. lra.
Qed.

Lemma converted_max_float (rd : Report) (m : Measurement) :
  real_valued rd m -> is_float (max_value (converted rd m)).
Proof.
  intros [[Hv Hmx] HT]. unfold converted, to_air, to_minutes in *.
  destruct m as [pn ln t v mx T]; simpl in *.
  destruct v as [v|]; [|contradiction]. destruct mx as [mx|]; [|contradiction].
  destruct (rate_unit rd =? "cm³/min")%string,
           (test_medium rd =? "Air")%string; simpl;
    try exact I; apply air_leak_rate_float; exact HT.
Qed.

(** [create_pdf] on a session with measurements, when the unit or the medium
    asks for a conversion: every measurement is converted, [measurement] is
    left on the last one, and every specimen point is presented for that
    measurement's temperature. *)
Lemma create_pdf_converting (rd : Report) (sps : list Specimen)
    (ms : list Measurement) (m_last : Measurement)
    (gx : list (list R)) (gy : list (list pynum)) :
  rate_unit rd = "cm³/min"%string \/ test_medium rd = "Air"%string ->
  Forall (real_valued rd) (ms ++ [m_last]) ->
  create_pdf (initial_env rd sps (ms ++ [m_last]) gx gy) =
  (Ok tt,
   mkEnv rd sps (map (converted rd) (ms ++ [m_last])) (Some (length ms)) false
         (map row (map (converted rd) (ms ++ [m_last])))
         (map (@x_value) sps)
         (map (fun sp => map (presented rd (average_temperature m_last))
                             (y_value sp)) sps)).
Proof.
  intros Hcase Hreal.
  set (l := (ms ++ [m_last])%list) in *.
  assert (Hne : l <> []) by (subst l; destruct ms; discriminate).
  assert (Hlen : (length l - 1 = length ms)%nat).
  { subst l. rewrite length_app. simpl. lia. }
  unfold create_pdf, initial_env.
  rewrite bind_modify, bind_get. cbv beta. env_simpl.
  erewrite bind_run; cycle 1.
  { apply for_measurement_convert_all;
      [exact Hne | | reflexivity | exact Hcase].
    eapply Forall_impl; [|exact Hreal]. intros a [Ha _]. exact Ha. }
  env_simpl. rewrite bind_modify, bind_get. cbv beta. env_simpl.
  rewrite <- (length_map (converted rd) l) at 1.
  erewrite bind_run; cycle 1.
  { apply for_measurement_append_row_all; [ | | reflexivity ].
    - destruct l; [contradiction | discriminate].
    - apply Forall_map. eapply Forall_impl; [|exact Hreal].
      intros a Ha. apply converted_max_float. exact Ha. }
  env_simpl. rewrite length_map, Hlen.
  rewrite load_data_from_database_pdf_eq
    with (f := presented rd (average_temperature m_last)).
  - reflexivity.
  - intros y gx' gy'.
    erewrite convert_y_value_eq with (i := length ms) (m := converted rd m_last).
    + env_simpl. now rewrite converted_temperature.
    + reflexivity.
    + env_simpl. subst l. rewrite map_app. simpl.
      rewrite <- (length_map (converted rd) ms). apply nth_error_middle.
Qed.

Lemma create_pdf_no_measurements (rd : Report) (sps : list Specimen)
    (gx : list (list R)) (gy : list (list pynum)) :
  test_medium rd <> "Air"%string ->
  create_pdf (initial_env rd sps [] gx gy) =
  (Ok tt,
   mkEnv rd sps [] None true [] (map (@x_value) sps)
         (map (fun sp => map (presented rd 0) (y_value sp)) sps)).
Proof.
  intros Hm. unfold create_pdf, initial_env.
  rewrite bind_modify, bind_get. cbv beta. env_simpl.
  cbn [length seq for_measurement]. rewrite bind_ret, bind_modify, bind_get.
  cbv beta. env_simpl. cbn [length seq for_measurement]. rewrite bind_ret.
  rewrite load_data_from_database_pdf_eq with (f := presented rd 0).
  - reflexivity.
  - intros y gx' gy'. apply convert_y_value_helium. exact Hm.
Qed.

Lemma create_pdf_unbound (rd : Report) (sps : list Specimen)
    (gx : list (list R)) (gy : list (list pynum)) :
  test_medium rd = "Air"%string ->
  (exists sp, In sp sps /\ y_value sp <> []) ->
  fst (create_pdf (initial_env rd sps [] gx gy)) = Raise NameError.
Proof.
  intros Hair Hsp. unfold create_pdf, initial_env.
  rewrite bind_modify, bind_get. cbv beta. env_simpl.
  cbn [length seq for_measurement]. rewrite bind_ret, bind_modify, bind_get.
  cbv beta. env_simpl. cbn [length seq for_measurement]. rewrite bind_ret.
  unfold load_data_from_database_pdf. rewrite !bind_modify, bind_get.
  cbv beta. env_simpl.
  apply load_specimens_unbound; [exact Hair | reflexivity | exact Hsp].
Qed.

(** C10.  With the medium "Air", [create_pdf] on a session whose
    measurements end with [m_last] leaves [measurement] on that last
    measurement, and [load_data_from_database_pdf] converts every point of
    every specimen with the one temperature [average_temperature m_last];
    on a session without measurements the name is unbound and the first
    specimen point raises [NameError]. *)
Theorem specimens_converted_at_last_temperature
    (rd : Report) (sps : list Specimen) (ms : list Measurement)
    (m_last : Measurement) (gx : list (list R)) (gy : list (list pynum)) :
  test_medium rd = "Air"%string ->
  Forall (real_valued rd) (ms ++ [m_last]) ->
  (exists e',
      create_pdf (initial_env rd sps (ms ++ [m_last]) gx gy) = (Ok tt, e')
      /\ measurement e' = Some (length ms)
      /\ element_listy e' =
         map (fun sp =>
                map (fun y =>
                       air_leak_rate rd
                         (if (rate_unit rd =? "cm³/min")%string
                          then y * 60 else y)
                         (average_temperature m_last))
                    (y_value sp)) sps)
  /\ ((exists sp, In sp sps /\ y_value sp <> []) ->
      fst (create_pdf (initial_env rd sps [] gx gy)) = Raise NameError).
Proof.
  intros Hair Hreal. split.
  - eexists. split; [apply create_pdf_converting; auto|].
    split; [reflexivity|]. cbn [element_listy].
    apply map_ext. intros sp. apply map_ext. intros y.
    unfold presented. rewrite Hair. reflexivity.
  - apply create_pdf_unbound. exact Hair.
Qed.

Lemma two_measurements_witness :
  (exists e',
      create_pdf (initial_env report_air_sccm [specimen_1] [cold; warm] [] [])
      = (Ok tt, e')
      /\ measurement e' = Some 1%nat
      /\ element_listy e' =
         [map (fun y => air_leak_rate report_air_sccm y 303)
              [0.001; 0.002; 0.001]])
  /\ fst (create_pdf (initial_env report_air_sccm [specimen_1] [] [] []))
     = Raise NameError.
Proof.
  destruct (@specimens_converted_at_last_temperature
              report_air_sccm [specimen_1] [cold] warm [] [])
    as [H1 H2].
  - reflexivity.
  - repeat (constructor; [split; [split; exact I | intros _; simpl; lra] |]).
    constructor.
  - split; [exact H1|]. apply H2.
    exists specimen_1. split; [now left | discriminate].
Defined.

(** C6.  With the medium "He" and the unit "cm³/min", [create_pdf] turns
    every stored leak rate into 60 times its value and nothing else: both
    rates of every measurement, in the objects and in the rows of the
    table, and every point of every specimen's y-series. *)
Theorem minutes_report_multiplies_by_sixty
    (rd : Report) (sps : list Specimen) (ms : list Measurement)
    (gx : list (list R)) (gy : list (list pynum)) :
  test_medium rd = "He"%string ->
  rate_unit rd = "cm³/min"%string ->
  Forall floats ms ->
  exists e',
    create_pdf (initial_env rd sps ms gx gy) = (Ok tt, e')
    /\ measurements_list e' =
       map (fun m =>
              mkMeasurement (panel_no m) (location_no m) (time_in_seconds m)
                (PyFloat (float_of (value_mbarl_second m) * 60))
                (PyFloat (float_of (max_value m) * 60))
                (average_temperature m)) ms
    /\ df_list e' =
       map (fun m =>
              (panel_no m, location_no m, time_in_seconds m,
               PyFloat (float_of (value_mbarl_second m) * 60),
               float_of (max_value m) * 60)) ms
    /\ element_listy e' =
       map (fun sp => map (fun y => PyFloat (y * 60)) (y_value sp)) sps.
Proof.
  intros Hhe Hcm Hf.
  assert (Hnair : test_medium rd <> "Air"%string) by (rewrite Hhe; discriminate).
  assert (Hconv : forall m, floats m ->
            converted rd m =
            mkMeasurement (panel_no m) (location_no m) (time_in_seconds m)
               (PyFloat (float_of (value_mbarl_second m) * 60))
               (PyFloat (float_of (max_value m) * 60))
               (average_temperature m)).
  { intros [pn ln t v mx T] [Hv Hmx]. simpl in Hv, Hmx.
    destruct v; [|contradiction]. destruct mx; [|contradiction].
    unfold converted. rewrite Hcm, Hhe. reflexivity. }
  assert (Hpres : forall T y, presented rd T y = PyFloat (y * 60)).
  { intros T y. unfold presented. rewrite Hcm, Hhe. reflexivity. }
  destruct ms as [|m0 ms0].
  - eexists. split; [apply create_pdf_no_measurements; exact Hnair|].
    split; [reflexivity|]. split; [reflexivity|]. cbn [element_listy].
    apply map_ext. intros sp. apply map_ext. intros y. apply Hpres.
  - destruct (@exists_last _ (m0 :: ms0)) as (ms' & m_last & E);
      [discriminate|].
    rewrite E in *. clear E.
    assert (Hmap : map (converted rd) (ms' ++ [m_last]) =
                   map (fun m =>
                          mkMeasurement (panel_no m) (location_no m)
                            (time_in_seconds m)
                            (PyFloat (float_of (value_mbarl_second m) * 60))
                            (PyFloat (float_of (max_value m) * 60))
                            (average_temperature m)) (ms' ++ [m_last])).
    { apply map_ext_in. intros m Hin. apply Hconv.
      rewrite Forall_forall in Hf. apply Hf. exact Hin. }
    eexists. split.
    { apply create_pdf_converting; [left; exact Hcm|].
      eapply Forall_impl; [|exact Hf]. intros m Hm. split; [exact Hm|].
      intros Hs. rewrite Hcm in Hs. discriminate. }
    cbn [measurements_list df_list element_listy].
    split; [exact Hmap|]. split.
    + rewrite Hmap, map_map. reflexivity.
    + apply map_ext. intros sp. apply map_ext. intros y. apply Hpres.
Qed.

Lemma helium_minutes_witness :
  exists e',
    create_pdf (initial_env report_he_minutes [specimen_1] [cold; warm] [] [])
    = (Ok tt, e')
    /\ measurements_list e' =
       [mkMeasurement "1" "1" 12 (PyFloat (0.001 * 60)) (PyFloat (0.002 * 60))
                      283;
        mkMeasurement "1" "2" 15 (PyFloat (0.003 * 60)) (PyFloat (0.004 * 60))
                      303]
    /\ df_list e' =
       [("1", "1", 12, PyFloat (0.001 * 60), 0.002 * 60);
        ("1", "2", 15, PyFloat (0.003 * 60), 0.004 * 60)]
    /\ element_listy e' =
       [[PyFloat (0.001 * 60); PyFloat (0.002 * 60); PyFloat (0.001 * 60)]].
Proof.
  apply (@minutes_report_multiplies_by_sixty
           report_he_minutes [specimen_1] [cold; warm] [] []).
  - reflexivity.
  - reflexivity.
  - repeat constructor.
Defined.

End CreatePdf.


(** ** The regular expression matcher *)

Section Regex.
Local Close Scope string_scope.
Local Open Scope list_scope.

Lemma strip_prefix_spec (l s rest : list ascii) :
  strip_prefix l s = Some rest <-> s = l ++ rest.
Proof.
  revert s. induction l as [|a l IH]; intros s; simpl.
  - split; congruence.
  - destruct s as [|b s].
    + split; discriminate.
    + destruct (Ascii.eqb_spec a b) as [->|Hn].
      * rewrite IH. split; congruence.
      * split; [discriminate | congruence].
Qed.

Lemma star_splits_spec (cl : charclass) (s m rest : list ascii) :
  In (m, rest) (star_splits cl s) <->
  s = m ++ rest /\ Forall (fun x => in_class cl x = true) m.
Proof.
  revert m rest. induction s as [|x s IH]; intros m rest; simpl.
  - split.
    + intros [H|[]]. injection H as <- <-. auto.
    + intros [H _]. symmetry in H. apply app_eq_nil in H as [-> ->]. auto.
  - destruct (in_class cl x) eqn:Ex.
    + rewrite in_app_iff, in_map_iff. split.
      * intros [([m' r'] & E & Hin)|[E|[]]].
        -- simpl in E. injection E as <- <-. apply IH in Hin as [-> Hf].
           split; [reflexivity | constructor; assumption].
        -- injection E as <- <-. auto.
      * intros [E Hf]. destruct m as [|y m].
        -- right. left. simpl in E. now subst.
        -- left. simpl in E. injection E as -> ->.
           exists (m, rest). split; [reflexivity|]. apply IH.
           inversion Hf; subst. auto.
    + split.
      * intros [E|[]]. injection E as <- <-. auto.
      * intros [E Hf]. destruct m as [|y m].
        -- left. simpl in E. now subst.
        -- simpl in E. injection E as -> ->. inversion Hf; subst. congruence.
Qed.

Lemma plus_splits_spec (cl : charclass) (s m rest : list ascii) :
  In (m, rest) (plus_splits cl s) <->
  s = m ++ rest /\ m <> [] /\ Forall (fun x => in_class cl x = true) m.
Proof.
  destruct s as [|x s]; simpl.
  - split; [contradiction|]. intros (E & Hne & _).
    symmetry in E. apply app_eq_nil in E as [-> _]. contradiction.
  - destruct (in_class cl x) eqn:Ex.
    + rewrite in_map_iff. split.
      * intros ([m' r'] & E & Hin). simpl in E. injection E as <- <-.
        apply star_splits_spec in Hin as [-> Hf].
        split; [reflexivity|]. split; [discriminate | constructor; assumption].
      * intros (E & Hne & Hf). destruct m as [|y m]; [contradiction|].
        simpl in E. injection E as -> ->. exists (m, rest).
        split; [reflexivity|]. apply star_splits_spec.
        inversion Hf; subst. auto.
    + split; [contradiction|]. intros (E & Hne & Hf).
      destruct m as [|y m]; [contradiction|].
      simpl in E. injection E as -> ->. inversion Hf; subst. congruence.
Qed.

Lemma rep_split_spec (n : nat) (cl : charclass) (s m rest : list ascii) :
  rep_split n cl s = Some (m, rest) <->
  s = m ++ rest /\ length m = n /\ Forall (fun x => in_class cl x = true) m.
Proof.
  split.
  - revert s m rest. induction n as [|n IH]; intros s m rest; simpl.
    + intros E. injection E as <- <-. auto.
    + destruct s as [|x s]; [discriminate|].
      destruct (in_class cl x) eqn:Ex; [|discriminate].
      destruct (rep_split n cl s) as [[m' r']|] eqn:Er; [|discriminate].
      intros E. injection E as <- <-.
      apply IH in Er as (-> & Hl & Hf). simpl. auto.
  - intros (-> & <- & Hf). induction Hf as [|x m Hx Hf IH]; simpl.
    + reflexivity.
    + now rewrite Hx, IH.
Qed.

(** The matcher finds exactly the matches of the expression. *)
Lemma rmatch_spec (r : regex) (s m rest : list ascii) (c c' : captures) :
  In (m, rest, c') (rmatch r s c) <-> s = m ++ rest /\ matches r m c c'.
Proof.
  revert s m rest c c'.
  induction r as [l|cl|cl|n cl|r1 IH1 r2 IH2|i r IH]; intros s m rest c c'; simpl.
  - destruct (strip_prefix l s) as [rest'|] eqn:E.
    + apply strip_prefix_spec in E. subst. split.
      * intros [H|[]]. injection H as <- <- <-. split; [reflexivity|constructor].
      * intros [E H]. inversion H; subst. apply app_inv_head in E. subst. now left.
    + split; [contradiction|]. intros [E' H]. inversion H; subst.
      assert (strip_prefix m (m ++ rest) = Some rest) by now apply strip_prefix_spec.
      congruence.
  - rewrite in_map_iff. split.
    + intros ([m' r'] & E & Hin). simpl in E. injection E as <- <- <-.
      apply plus_splits_spec in Hin as (-> & Hne & Hf).
      split; [reflexivity | constructor; assumption].
    + intros [E H]. inversion H; subst. exists (m, rest).
      split; [reflexivity|]. apply plus_splits_spec. auto.
  - rewrite in_map_iff. split.
    + intros ([m' r'] & E & Hin). simpl in E. injection E as <- <- <-.
      apply star_splits_spec in Hin as (-> & Hf).
      split; [reflexivity | constructor; assumption].
    + intros [E H]. inversion H; subst. exists (m, rest).
      split; [reflexivity|]. apply star_splits_spec. auto.
  - destruct (rep_split n cl s) as [[m' r']|] eqn:E.
    + pose proof E as E'. apply rep_split_spec in E' as (-> & Hl & Hf). split.
      * intros [H|[]]. injection H as <- <- <-.
        split; [reflexivity | constructor; assumption].
      * intros [E2 H].
        assert (rep_split n cl (m' ++ r') = Some (m, rest)) as Hs.
        { apply rep_split_spec. inversion H; subst; auto. }
        rewrite E in Hs. injection Hs as <- <-.
        inversion H; subst. now left.
    + split; [contradiction|]. intros [E2 H].
      assert (rep_split n cl s = Some (m, rest)) as Hs.
      { apply rep_split_spec. inversion H; subst; auto. }
      congruence.
  - rewrite in_flat_map. split.
    + intros ([[m1 rest1] c1] & H1 & H2). apply in_map_iff in H2.
      destruct H2 as ([[m2 rest2] c2] & E & H2). injection E as <- <- <-.
      apply IH1 in H1 as [-> H1]. apply IH2 in H2 as [-> H2].
      split; [now rewrite app_assoc | econstructor; eassumption].
    + intros [E H]. inversion H; subst.
      exists (m1, m2 ++ rest, c'0). split.
      * apply IH1. split; [now rewrite app_assoc | assumption].
      * apply in_map_iff. exists (m2, rest, c'). split; [reflexivity|].
        apply IH2. auto.
  - rewrite in_map_iff. split.
    + intros ([[m' rest'] c1] & E & H). injection E as <- <- <-.
      apply IH in H as [-> H]. split; [reflexivity | constructor; assumption].
    + intros [E H]. inversion H; subst. exists (m, rest, c'0).
      split; [reflexivity|]. apply IH. auto.
Qed.

Lemma rmatch_nil (r : regex) (s : list ascii) :
  rmatch r s [] = [] <->
  forall m rest c, s = m ++ rest -> ~ matches r m [] c.
Proof.
  split.
  - intros E m rest c Hs Hm.
    assert (In (m, rest, c) (rmatch r s [])) as H by (apply rmatch_spec; auto).
    rewrite E in H. contradiction.
  - intros H. destruct (rmatch r s []) as [|[[m rest] c] l] eqn:E; [reflexivity|].
    assert (In (m, rest, c) (rmatch r s [])) as Hin by (rewrite E; now left).
    apply rmatch_spec in Hin as [Hs Hm]. exfalso. eapply H; eassumption.
Qed.

Lemma search_none (r : regex) (s : list ascii) :
  search r s = None <->
  forall pre suf, s = pre ++ suf -> rmatch r suf [] = [].
Proof.
  induction s as [|x s IH]; simpl.
  - destruct (rmatch r [] []) as [|a l] eqn:E.
    + split; [|reflexivity]. intros _ pre suf Hs.
      symmetry in Hs. apply app_eq_nil in Hs as [_ ->]. exact E.
    + split; [discriminate|]. intros H. specialize (H [] [] eq_refl). congruence.
  - destruct (rmatch r (x :: s) []) as [|a l] eqn:E.
    + rewrite IH. split.
      * intros H pre suf Hs. destruct pre as [|y pre].
        -- simpl in Hs. subst. exact E.
        -- simpl in Hs. injection Hs as _ Hs. eapply H. exact Hs.
      * intros H pre suf Hs. apply (H (x :: pre)). simpl. now rewrite Hs.
    + split; [discriminate|]. intros H.
      specialize (H [] (x :: s) eq_refl). congruence.
Qed.

Lemma search_some (r : regex) (s m rest : list ascii) (c : captures) :
  search r s = Some (m, rest, c) ->
  exists pre l,
    s = pre ++ m ++ rest /\ rmatch r (m ++ rest) [] = (m, rest, c) :: l /\
    forall pre' suf, s = pre' ++ suf -> length pre' < length pre ->
                     rmatch r suf [] = [].
Proof.
  induction s as [|x s IH]; simpl.
  - destruct (rmatch r [] []) as [|a l] eqn:E; [discriminate|].
    intros H. injection H as ->.
    assert (In (m, rest, c) (rmatch r [] [])) as Hin by (rewrite E; now left).
    apply rmatch_spec in Hin as [Hs _].
    exists [], l. rewrite <- Hs. simpl. split; [reflexivity|].
    split; [exact E|]. intros pre' suf _ Hl. simpl in Hl. lia.
  - destruct (rmatch r (x :: s) []) as [|a l] eqn:E.
    + intros H. apply IH in H as (pre & l & -> & Hm & Hleft).
      exists (x :: pre), l. split; [reflexivity|]. split; [exact Hm|].
      intros pre' suf Hs Hl. destruct pre' as [|y pre'].
      * simpl in Hs. subst suf. exact E.
      * simpl in Hs. injection Hs as _ Hs. apply (Hleft pre' suf Hs).
        simpl in Hl. lia.
    + intros H. injection H as ->.
      assert (In (m, rest, c) (rmatch r (x :: s) [])) as Hin
          by (rewrite E; now left).
      apply rmatch_spec in Hin as [Hs _].
      exists [], l. rewrite <- Hs. simpl. split; [reflexivity|].
      split; [exact E|]. intros pre' suf _ Hl. simpl in Hl. lia.
Qed.

Lemma matches_keeps_group (r : regex) (m : list ascii) (c c' : captures)
    (i : nat) :
  matches r m c c' -> ~ In i (groups r) -> group i c' = group i c.
Proof.
  induction 1 as [| | | |r1 r2 m1 m2 c c' c'' H1 IH1 H2 IH2|j r m c c' H IH];
    simpl; intros Hi; try reflexivity.
  - rewrite in_app_iff in Hi. rewrite IH2, IH1; tauto.
  - destruct (Nat.eqb_spec j i) as [->|Hn]; [tauto|]. apply IH. tauto.
Qed.

Lemma take_while_run (p : ascii -> bool) (a : list ascii) (x : ascii)
    (r : list ascii) :
  Forall (fun y => p y = true) a -> p x = false ->
  take_while p (a ++ x :: r) = a /\ drop_while p (a ++ x :: r) = x :: r.
Proof.
  intros Ha Hx. induction Ha as [|y a Hy Ha [IH1 IH2]]; simpl.
  - now rewrite Hx.
  - rewrite Hy, IH1, IH2. auto.
Qed.

Lemma digit_not_space (x : ascii) : is_digit x = true -> is_space x = false.
Proof.
  destruct x as [[] [] [] [] [] [] [] []]; vm_compute; congruence.
Qed.

Lemma space_not_digit (x : ascii) : is_space x = true -> is_digit x = false.
Proof.
  destruct x as [[] [] [] [] [] [] [] []]; vm_compute; congruence.
Qed.

Lemma pattern_shape (line : list ascii) (c : captures) :
  matches pattern line [] c ->
  exists ws d1 d2 x t,
    line = list_ascii_of_string "He" ++ ws ++ (d1 ++ "."%char :: d2) ++ x :: t
    /\ group 1 c = d1 ++ "."%char :: d2
    /\ ws <> [] /\ Forall (fun y => is_space y = true) ws
    /\ d1 <> [] /\ Forall (fun y => is_digit y = true) d1
    /\ d2 <> [] /\ Forall (fun y => is_digit y = true) d2
    /\ is_digit x = false.
Proof.
  unfold pattern. intros H.
  inversion H as [| | | |? ? he m1 ? ? ? Hhe H1| ]; subst; clear H.
  inversion Hhe; subst; clear Hhe.
  inversion H1 as [| | | |? ? ws m2 ? ? ? Hws H2| ]; subst; clear H1.
  inversion Hws as [|? ? ? Hwsne Hwsf| | | | ]; subst; clear Hws.
  inversion H2 as [| | | |? ? g m3 ? c1 ? Hg H3| ]; subst; clear H2.
  inversion Hg as [| | | | |? ? ? ? c0 Hdec]; subst; clear Hg.
  unfold decimal in Hdec.
  inversion Hdec as [| | | |? ? d1 m4 ? ? ? Hd1 H4| ]; subst; clear Hdec.
  inversion Hd1 as [|? ? ? Hd1ne Hd1f| | | | ]; subst; clear Hd1.
  inversion H4 as [| | | |? ? dot d2 ? ? ? Hdot Hd2| ]; subst; clear H4.
  inversion Hdot; subst; clear Hdot.
  inversion Hd2 as [|? ? ? Hd2ne Hd2f| | | | ]; subst; clear Hd2.
  (* the rest of the line starts with whitespace or with the percent sign *)
  inversion H3 as [| | | |? ? ws2 m5 ? ? ? Hws2 H5| ]; subst; clear H3.
  inversion Hws2 as [| |? ? ? Hws2f| | | ]; subst; clear Hws2.
  inversion H5 as [| | | |? ? pc m6 ? ? c2 Hpc H6| ]; subst; clear H5.
  inversion Hpc; subst; clear Hpc.
  assert (Hg1 : group 1 c = d1 ++ "."%char :: d2).
  { erewrite matches_keeps_group; [| exact H6 |].
    - reflexivity.
    - simpl. intros Hin. repeat (destruct Hin as [Hin|Hin]; [discriminate|]).
      exact Hin. }
  assert (Hx : exists x t, ws2 ++ list_ascii_of_string "%" ++ m6 = x :: t
                           /\ is_digit x = false).
  { destruct Hws2f as [|y ws2 Hy Hf]; simpl.
    - eexists _, _. split; [reflexivity | reflexivity].
    - eexists _, _. split; [reflexivity | now apply space_not_digit]. }
  destruct Hx as (x & t & Ex & Hx).
  exists ws, d1, d2, x, t. rewrite <- Ex. simpl.
  repeat split; auto.
Qed.

Lemma pattern_helium_text (line rest : list ascii) (c : captures) :
  matches pattern line [] c -> helium_text (line ++ rest) = group 1 c.
Proof.
  intros H. apply pattern_shape in H
    as (ws & d1 & d2 & x & t & -> & -> & Hws & Hwsf & Hd1 & Hd1f & Hd2 & Hd2f & Hx).
  unfold helium_text. simpl skipn.
  destruct d1 as [|a d1]; [contradiction|].
  assert (Ha : is_space a = false).
  { apply digit_not_space. now inversion Hd1f. }
  rewrite <- !app_assoc. simpl app.
  destruct (@take_while_run is_space ws a
              (d1 ++ "."%char :: d2 ++ x :: t ++ rest) Hwsf Ha) as [_ ->].
  change (a :: d1 ++ "."%char :: d2 ++ x :: t ++ rest)
    with ((a :: d1) ++ "."%char :: d2 ++ x :: t ++ rest).
  destruct (@take_while_run is_digit (a :: d1) "."%char
              (d2 ++ x :: t ++ rest) Hd1f eq_refl) as [-> ->].
  simpl tl.
  destruct (@take_while_run is_digit d2 x (t ++ rest) Hd2f Hx) as [-> _].
  reflexivity.
Qed.

Lemma app_same_length {A} (a a' b b' : list A) :
  a ++ b = a' ++ b' -> length a = length a' -> a = a' /\ b = b'.
Proof.
  revert a'. induction a as [|x a IH]; intros [|x' a'] E Hl; simpl in *;
    try discriminate.
  - auto.
  - injection E as -> E. injection Hl as Hl.
    destruct (IH a' E Hl) as [-> ->]. auto.
Qed.

Lemma parse_data_none (data : string) :
  ~ contains_line data -> parse_data data = None.
Proof.
  intros Hn. unfold parse_data.
  destruct (search pattern (list_ascii_of_string data))
    as [[[m rest] c]|] eqn:E; [|reflexivity].
  exfalso. apply Hn.
  apply search_some in E as (pre & l & Hs & Hm & _).
  assert (In (m, rest, c) (rmatch pattern (m ++ rest) [])) as Hin
      by (rewrite Hm; now left).
  apply rmatch_spec in Hin as [_ Hin].
  exists pre, m, rest, c. auto.
Qed.

Lemma parse_data_leftmost (data : string) (pre line post : list ascii)
    (c : captures) :
  list_ascii_of_string data = pre ++ line ++ post ->
  matches pattern line [] c ->
  (forall pre' line' post' c',
      list_ascii_of_string data = pre' ++ line' ++ post' ->
      matches pattern line' [] c' -> length pre <= length pre') ->
  parse_data data = Some (string_of_list_ascii (group 1 c)).
Proof.
  intros Hs Hm Hleft. unfold parse_data.
  destruct (search pattern (list_ascii_of_string data))
    as [[[m rest] c0]|] eqn:E.
  - apply search_some in E as (pre0 & l & Hs0 & Hm0 & Hleft0).
    assert (In (m, rest, c0) (rmatch pattern (m ++ rest) [])) as Hin
        by (rewrite Hm0; now left).
    apply rmatch_spec in Hin as [_ Hin].
    assert (Hlen : length pre0 = length pre).
    { destruct (Nat.lt_trichotomy (length pre0) (length pre)) as [Hlt|[He|Hgt]].
      - specialize (Hleft pre0 m rest c0 Hs0 Hin). lia.
      - exact He.
      - specialize (Hleft0 pre (line ++ post) Hs Hgt).
        rewrite rmatch_nil in Hleft0.
        exfalso. exact (Hleft0 line post c eq_refl Hm). }
    rewrite Hs in Hs0. apply app_same_length in Hs0 as [_ Hs0]; [|auto].
    rewrite <- (pattern_helium_text rest Hin), <- Hs0.
    rewrite (pattern_helium_text post Hm). reflexivity.
  - exfalso. rewrite search_none in E. specialize (E pre (line ++ post) Hs).
    rewrite rmatch_nil in E. exact (E line post c eq_refl Hm).
Qed.



End Regex.

(** ** read_from_serial *)

(** A call never lets a [SerialException] out: its handler turns it into
    the result 0. *)
Lemma read_from_serial_catches (depth : nat) (ser : nat -> poll) (k : nat) :
  read_from_serial depth ser k <> Raise SerialException.
Proof.
  destruct depth as [|depth]; simpl.
  - discriminate.
  - destruct (in_waiting (ser k)) as [n|[]]; simpl; try discriminate.
    destruct (n >? 0)%Z.
    + destruct (poll_readline (ser k)) as [data|[]]; simpl; discriminate.
    + destruct (read_from_serial depth ser (S k)) as [r|[]]; simpl;
        discriminate.
Qed.



(** ** get_power_on_time *)






(** ** get_serial_devices *)

Lemma str_never_equals_int (v : pyval) (z : Z) :
  py_eq (py_str v) (PInt z) = false.
Proof. destruct v; reflexivity. Qed.

(** The first pass compares [str(port.vid)] with the integer
    [SERIAL_PORT_VID]: it leaves the scan as it found it, whatever the
    ports. *)
Lemma scan_for_relay_never_connects (relay_connect : string -> bool)
    (ports : list port_info) (s : scan_state) :
  scan_for_relay relay_connect ports s = (Ok tt, s).
Proof.
  induction ports as [|p ports IH]; simpl.
  - reflexivity.
  - rewrite str_never_equals_int. exact IH.
Qed.

(** C8, on the relay board.  A port of vendor 1027 on which the relay
    answers is not detected as the relay switch in the first pass: the pass
    leaves the scan untouched, no relay object is created, and the second
    pass reports the port as a pressure gauge. *)
Theorem relay_not_detected_in_first_pass :
  vid relay_port = Some SERIAL_PORT_VID
  /\ scan_for_relay (fun _ => true) [relay_port] fresh_scan = (Ok tt, fresh_scan)
  /\ get_serial_devices (fun _ => true) (fun _ => relay_board) [relay_port]
       fresh_scan
     = (Ok [("USB Serial Port", "COM3")],
        mkScan unconfigured unconfigured unconfigured unconfigured false
               [PressureGaugeConnected "COM3"]).
Proof.
  split; [reflexivity|]. split; [apply scan_for_relay_never_connects|].
  vm_compute. reflexivity.
Qed.

(** The second pass classifies a port by its vendor ID, compared as an
    integer: 1240 is registered as the leak detector, 42496 as the helium
    analyzer, and 1027 as the mass flow controller when the stop-gas-flow
    probe succeeds and reported as a pressure gauge when it fails. *)
Lemma classify_by_vendor (serial_at : string -> serial_device)
    (p : port_info) (s : scan_state) :
  (vid p = Some INFICON_LEAK_DETECTOR_VID ->
   classify serial_at p s =
   (Ok tt,
    log_connection (InficonUnitConnected (strip (device p)))
      (set_leak_detector (connect_via (strip (device p)) (leak_detector s)) s)))
  /\ (vid p = Some HELIUM_ANALYZER_VID ->
      classify serial_at p s =
      (Ok tt,
       log_connection (HeliumAnalyzerConnected (strip (device p)))
         (set_helium_analyzer
            (connect_via (strip (device p)) (helium_analyzer s)) s)))
  /\ (vid p = Some SERIAL_PORT_VID ->
      stop_gas_flow serial_at (device p) s = (Ok true, s) ->
      classify serial_at p s =
      (Ok tt,
       log_connection (MassFlowControllerConnected (strip (device p)))
         (set_mass_flow_controller
            (connect_via (strip (device p)) (mass_flow_controller s)) s)))
  /\ (vid p = Some SERIAL_PORT_VID ->
      stop_gas_flow serial_at (device p) s = (Ok false, s) ->
      classify serial_at p s =
      (Ok tt, log_connection (PressureGaugeConnected (strip (device p))) s)).
Proof.
  unfold classify, vid_value.
  repeat split; intros Hv; rewrite Hv; simpl; try reflexivity;
    intros Hstop; erewrite bind_run by exact Hstop; reflexivity.
Qed.

(** The probe leaves the scan as it is. *)
Lemma stop_gas_flow_state (serial_at : string -> serial_device)
    (port : string) (s : scan_state) :
  snd (stop_gas_flow serial_at port s) = s.
Proof. reflexivity. Qed.

(** ** Evaluations *)

(** [re.search] finds the line inside other text. *)
Example parse_data_embedded_line :
  parse_data ("log: " ++ analyzer_line ++ " (end)") = Some "23.5".
Proof. vm_compute. reflexivity. Qed.

(** A line cut short has no match. *)
Example parse_data_truncated_line :
  parse_data "He 23.5% O2 21.2% Ti 25.0~C 1012.3 hPa 2024/05/14 15:30:0" = None.
Proof. vm_compute. reflexivity. Qed.

(** Whitespace may separate the number from the percent sign, and must
    follow ["He"]. *)
Example parse_data_spacing :
  parse_data "He  7.25 % O2 20.9 %Ti 25.0~C 1012.3hPa 2024/05/14  15:30:00"
  = Some "7.25"
  /\ parse_data "He23.5% O2 21.2% Ti 25.0~C 1012.3 hPa 2024/05/14 15:30:00"
     = None.
Proof. split; vm_compute; reflexivity. Qed.

Example py_int_examples :
  py_int (" 42" ++ CR) = Ok 42%Z
  /\ py_int "-1_000" = Ok (-1000)%Z
  /\ py_int "" = Raise ValueError
  /\ py_int "4 2" = Raise ValueError
  /\ py_int "1__0" = Raise ValueError.
Proof. repeat split. Qed.

(** An idle port exhausts the recursion limit. *)
Example read_from_serial_idle_port :
  read_from_serial 3 (fun _ => mkPoll (Ok 0%Z) (Ok "")) 0 = Raise RecursionError.
Proof. reflexivity. Qed.

(** A port that fails at the second poll: the retry returns 0 and the call
    returns [None]. *)
Example read_from_serial_late_failure :
  read_from_serial 3
    (fun k => match k with
              | O => mkPoll (Ok 0%Z) (Ok "")
              | _ => mkPoll (Raise SerialException) (Ok "")
              end) 0
  = Ok PNone.
Proof. reflexivity. Qed.

(** * Further properties *)

(** ** convert_he_to_air: scaling, pressure and unit *)

Section ConvertHeToAirMore.
Local Open Scope R_scope.


(** X2.  A pressure difference between -2 and 0 bar is ignored: the
    pressure factor is applied only when it is positive, so all these
    pressure differences give the result of the pressure difference 0. *)
Theorem pressure_from_minus_two_to_zero_is_ignored
    (e1 e2 : Env) (h : pynum) (T : R) :
  rate_unit (report_data e1) = rate_unit (report_data e2) ->
  -2 <= pressure_difference (report_data e1) <= 0 ->
  -2 <= pressure_difference (report_data e2) <= 0 ->
  fst (convert_he_to_air h T e1) = fst (convert_he_to_air h T e2).
Proof.
  intros Hu H1 H2. destruct h as [h|re im]; [|reflexivity].
  rewrite !convert_he_to_air_value. unfold air_leak_rate. cbv zeta.
  simpl fst. rewrite Hu.
  destruct (Rlt_dec 0 _) as [H|_]; [exfalso; nra|].
  destruct (Rlt_dec 0 _) as [H|_]; [exfalso; nra|].
  reflexivity.
Qed.

Lemma pressure_ignored_witness :
  fst (convert_he_to_air (PyFloat 1) 293 (env_with_pressure (-1)))
  = fst (convert_he_to_air (PyFloat 1) 293 (env_with_pressure 0)).
Proof.
  apply pressure_from_minus_two_to_zero_is_ignored;
    [reflexivity | simpl; lra | simpl; lra].
Defined.

(** X3.  At a temperature of at least zero, the result in SCCM is the
    result in any other unit, at the same pressure difference, times 60
    and times the square root of [T / 273]. *)
Theorem sccm_is_rate_per_minute_times_root_of_temperature
    (e1 e2 : Env) (h T : R) :
  rate_unit (report_data e1) = "SCCM"%string ->
  rate_unit (report_data e2) <> "SCCM"%string ->
  pressure_difference (report_data e1) = pressure_difference (report_data e2) ->
  0 <= T ->
  exists r,
    convert_he_to_air (PyFloat h) T e2 = (Ok (PyFloat r), e2)
    /\ convert_he_to_air (PyFloat h) T e1
       = (Ok (PyFloat (r * 60 * sqrt (T / 273))), e1).
Proof.
  intros H1 H2 Hp HT. apply String.eqb_neq in H2.
  rewrite !convert_he_to_air_value. unfold air_leak_rate. cbv zeta.
  rewrite H1, H2, Hp. simpl.
  eexists. split; [reflexivity|].
  unfold py_pow_half, T1. replace 273.0 with 273 by lra.
  destruct (Rle_dec 0 (T / 273)) as [_|Hn].
  - reflexivity.
  - exfalso. apply Hn. apply Rmult_le_pos; [exact HT|].
    left. apply Rinv_0_lt_compat. lra.
Qed.

Lemma sccm_factor_witness :
  exists r,
    convert_he_to_air (PyFloat 2) 293 (env_with_pressure 1)
    = (Ok (PyFloat r), env_with_pressure 1)
    /\ convert_he_to_air (PyFloat 2) 293
         (initial_env (mkReport "Air" "" "" 1 "SCCM" 0) [] [] [] [])
       = (Ok (PyFloat (r * 60 * sqrt (293 / 273))),
          initial_env (mkReport "Air" "" "" 1 "SCCM" 0) [] [] [] []).
Proof.
  apply sccm_is_rate_per_minute_times_root_of_temperature;
    [reflexivity | discriminate | reflexivity | lra].
Defined.

End ConvertHeToAirMore.

(** ** create_pdf: reports that need no conversion, and reports that fail *)

Section CreatePdfMore.
Local Open Scope R_scope.

Ltac env_simpl :=
  cbn [set_flag set_df_list set_measurement set_measurements_list
       set_element_listx set_element_listy
       measurements_list report_data specimens measurement flag df_list
       element_listx element_listy].

(** Without a conversion to make, an iteration leaves everything as it
    is and hands back [flag]. *)
Lemma convert_measurement_idle (e : Env) :
  rate_unit (report_data e) <> "cm³/min"%string ->
  test_medium (report_data e) <> "Air"%string ->
  convert_measurement e = (Ok (flag e), e).
Proof.
  intros Hu Hm. apply String.eqb_neq in Hu, Hm.
  unfold convert_measurement.
  rewrite bind_get. cbv beta. rewrite Hu.
  rewrite bind_ret, bind_get. cbv beta. rewrite Hm.
  rewrite bind_ret, bind_get. reflexivity.
Qed.

Lemma for_measurement_breaks (body : M bool) (i : nat) (refs : list nat)
    (e e' : Env) :
  body (set_measurement (Some i) e) = (Ok true, e') ->
  for_measurement body (i :: refs) e = (Ok tt, e').
Proof.
  intros H. cbn [for_measurement]. rewrite bind_modify.
  erewrite bind_run by exact H. reflexivity.
Qed.

(** X4.  With a medium other than "Air" and a unit other than "cm³/min",
    the conversion loop breaks at the first measurement and [create_pdf]
    presents what is stored: the measurements are unchanged, the table has
    one row per measurement with its stored values, and the series of the
    graphs are the specimens' stored series. *)
Theorem helium_report_presents_stored_values
    (rd : Report) (sps : list Specimen) (ms : list Measurement)
    (gx : list (list R)) (gy : list (list pynum)) :
  test_medium rd <> "Air"%string ->
  rate_unit rd <> "cm³/min"%string ->
  Forall floats ms ->
  exists e',
    create_pdf (initial_env rd sps ms gx gy) = (Ok tt, e')
    /\ measurements_list e' = ms
    /\ df_list e' = map row ms
    /\ element_listx e' = map (@x_value) sps
    /\ element_listy e' = map (fun sp => map PyFloat (y_value sp)) sps.
Proof.
  intros Hm Hu Hf.
  assert (Hu' := Hu). assert (Hm' := Hm).
  apply String.eqb_neq in Hu', Hm'.
  assert (Hpres : forall T y, presented rd T y = PyFloat y).
  { intros T y. unfold presented. rewrite Hu', Hm'. reflexivity. }
  destruct ms as [|m0 ms0].
  - eexists. split; [apply create_pdf_no_measurements; exact Hm|].
    cbn [measurements_list df_list element_listx element_listy].
    repeat split. apply map_ext. intros sp. apply map_ext. intros y. apply Hpres.
  - set (ms := m0 :: ms0) in *.
    unfold create_pdf, initial_env.
    rewrite bind_modify, bind_get. cbv beta. env_simpl.
    erewrite bind_run; cycle 1.
    { subst ms. cbn [length seq]. apply for_measurement_breaks.
      rewrite convert_measurement_idle by assumption. reflexivity. }
    env_simpl. rewrite bind_modify, bind_get. cbv beta. env_simpl.
    erewrite bind_run; cycle 1.
    { apply for_measurement_append_row_all;
        [subst ms; discriminate | | reflexivity].
      eapply Forall_impl; [|exact Hf]. intros a [_ Ha]. exact Ha. }
    env_simpl.
    rewrite load_data_from_database_pdf_eq with (f := presented rd 0).
    + eexists. split; [reflexivity|]. env_simpl.
      repeat split. apply map_ext. intros sp. apply map_ext. intros y.
      apply Hpres.
    + intros y gx' gy'. apply convert_y_value_helium. exact Hm.
Qed.

Lemma stored_values_witness :
  exists e',
    create_pdf (initial_env report_he_mbar [specimen_1] [cold; warm] [] [])
    = (Ok tt, e')
    /\ measurements_list e' = [cold; warm]
    /\ df_list e' = map row [cold; warm]
    /\ element_listx e' = map (@x_value) [specimen_1]
    /\ element_listy e' = map (fun sp => map PyFloat (y_value sp)) [specimen_1].
Proof.
  apply (@helium_report_presents_stored_values
           report_he_mbar [specimen_1] [cold; warm] [] []).
  - discriminate.
  - discriminate.
  - repeat constructor.
Defined.

(** X5.  With the medium "Air" every row of the table carries the
    measurement's two rates converted at that measurement's own average
    temperature (after the multiplication by 60 when the unit is
    "cm³/min"), whereas the specimens' series are converted at the last
    measurement's temperature. *)
Theorem air_report_converts_each_row_at_its_own_temperature
    (rd : Report) (sps : list Specimen) (ms : list Measurement)
    (gx : list (list R)) (gy : list (list pynum)) :
  test_medium rd = "Air"%string ->
  ms <> [] ->
  Forall (real_valued rd) ms ->
  exists e',
    create_pdf (initial_env rd sps ms gx gy) = (Ok tt, e')
    /\ df_list e' =
       map (fun m =>
              let minutes (v : pynum) :=
                if (rate_unit rd =? "cm³/min")%string
                then float_of v * 60 else float_of v in
              (panel_no m, location_no m, time_in_seconds m,
               air_leak_rate rd (minutes (value_mbarl_second m))
                             (average_temperature m),
               float_of (air_leak_rate rd (minutes (max_value m))
                                       (average_temperature m)))) ms.
Proof.
  intros Ha Hne Hreal.
  destruct (@exists_last _ ms Hne) as (ms' & m_last & E).
  rewrite E in *. clear E Hne.
  eexists. split; [apply create_pdf_converting; auto|].
  cbn [df_list]. rewrite map_map. apply map_ext_in. intros m Hin.
  rewrite Forall_forall in Hreal. destruct (Hreal m Hin) as [[Hv Hmx] _].
  destruct m as [pn ln t v mx T]; simpl in Hv, Hmx.
  destruct v as [v|]; [|contradiction]. destruct mx as [mx|]; [|contradiction].
  unfold row, converted, to_air, to_minutes. rewrite Ha. simpl.
  destruct (rate_unit rd =? "cm³/min")%string; reflexivity.
Qed.

Lemma air_rows_witness :
  exists e',
    create_pdf (initial_env report_air_sccm [specimen_1] [cold; warm] [] [])
    = (Ok tt, e')
    /\ df_list e' =
       [("1", "1", 12, air_leak_rate report_air_sccm 0.001 283,
         float_of (air_leak_rate report_air_sccm 0.002 283));
        ("1", "2", 15, air_leak_rate report_air_sccm 0.003 303,
         float_of (air_leak_rate report_air_sccm 0.004 303))].
Proof.
  apply (@air_report_converts_each_row_at_its_own_temperature
           report_air_sccm [specimen_1] [cold; warm] [] []).
  - reflexivity.
  - discriminate.
  - repeat (constructor; [split; [split; exact I | intros _; simpl; lra] |]).
    constructor.
Defined.

(** The row loop stops at the first measurement whose highest rate is a
    complex number: [float] raises [TypeError] on it. *)
Lemma for_measurement_append_row_raises (todo done rest : list Measurement)
    (m : Measurement) (e : Env) :
  Forall (fun m => is_float (max_value m)) todo ->
  ~ is_float (max_value m) ->
  measurements_list e = (done ++ todo ++ m :: rest)%list ->
  for_measurement append_row
    (seq (length done) (length (todo ++ m :: rest))) e =
  (Raise TypeError,
   set_df_list (df_list e ++ map row todo)
     (set_measurement (Some (length done + length todo)%nat) e)).
Proof.
  revert done e. induction todo as [|m0 todo IH]; intros done e Hf Hc Hms.
  - cbn [app length seq for_measurement map].
    rewrite bind_modify.
    erewrite bind_raise; cycle 1.
    { unfold append_row.
      erewrite bind_run; cycle 1.
      { eapply read_measurement_eq; [reflexivity|].
        env_simpl. rewrite Hms. apply nth_error_middle. }
      destruct (max_value m) as [x|re im]; [exfalso; apply Hc; exact I|].
      reflexivity. }
    destruct e; simpl. rewrite app_nil_r, Nat.add_0_r. reflexivity.
  - inversion Hf as [|? ? Hm Hf']; subst.
    cbn [app length seq for_measurement].
    rewrite bind_modify.
    erewrite bind_run; cycle 1.
    { apply append_row_eq with (done := done) (todo := (todo ++ m :: rest)%list);
        [reflexivity | destruct e; exact Hms | exact Hm]. }
    cbv beta iota.
    specialize (IH (done ++ [m0])%list).
    rewrite length_app in IH. cbn [length] in IH.
    replace (length done + 1)%nat with (S (length done)) in IH by lia.
    rewrite IH; [| exact Hf' | exact Hc
                 | destruct e; simpl in *; now rewrite <- app_assoc].
    destruct e as [rd sps ms mv fl df gx gy]; simpl in *.
    unfold set_df_list, set_measurement; simpl.
    rewrite <- app_assoc. simpl. f_equal. f_equal. f_equal. f_equal. lia.
Qed.

Lemma converted_max_complex (rd : Report) (m : Measurement) :
  test_medium rd = "Air"%string -> rate_unit rd = "SCCM"%string ->
  floats m -> average_temperature m < 0 ->
  ~ is_float (max_value (converted rd m)).
Proof.
  intros Ha Hs [Hv Hmx] HT. unfold converted, to_air, to_minutes.
  rewrite Ha, Hs. simpl.
  destruct (value_mbarl_second m); [|contradiction].
  destruct (max_value m); [|contradiction].
  simpl. unfold air_leak_rate. cbv zeta. rewrite Hs. simpl.
  unfold py_pow_half.
  destruct (Rle_dec 0 (average_temperature m / T1)) as [Hp|_].
  - exfalso. unfold T1 in Hp.
    assert (average_temperature m / 273.0 < 0); [|lra].
    apply Rmult_neg_pos; [exact HT|]. apply Rinv_0_lt_compat. lra.
  - simpl. auto.
Qed.

(** X6.  An "Air" report in SCCM fails on a measurement whose average
    temperature is below zero: the square root of the temperature ratio is
    a complex number, the conversion loop stores complex rates, and the row
    of that measurement raises [TypeError] at [float(max_value)];
    the rows before it have been built, the series of the graphs have not
    been loaded. *)
Theorem sccm_air_report_fails_below_zero_degrees
    (rd : Report) (sps : list Specimen) (done : list Measurement)
    (m : Measurement) (todo : list Measurement)
    (gx : list (list R)) (gy : list (list pynum)) :
  test_medium rd = "Air"%string ->
  rate_unit rd = "SCCM"%string ->
  Forall floats (done ++ m :: todo) ->
  Forall (fun m' => 0 <= average_temperature m') done ->
  average_temperature m < 0 ->
  exists e',
    create_pdf (initial_env rd sps (done ++ m :: todo) gx gy)
    = (Raise TypeError, e')
    /\ df_list e' = map row (map (converted rd) done)
    /\ element_listx e' = gx /\ element_listy e' = gy.
Proof.
  intros Ha Hs Hf Hd HT.
  set (l := (done ++ m :: todo)%list) in *.
  assert (Hne : l <> []) by (subst l; destruct done; discriminate).
  unfold create_pdf, initial_env.
  rewrite bind_modify, bind_get. cbv beta. env_simpl.
  erewrite bind_run; cycle 1.
  { apply for_measurement_convert_all;
      [exact Hne | exact Hf | reflexivity | right; exact Ha]. }
  env_simpl. rewrite bind_modify, bind_get. cbv beta. env_simpl.
  subst l. rewrite map_app. cbn [map].
  erewrite bind_raise; cycle 1.
  { apply (@for_measurement_append_row_raises
             (map (converted rd) done) [] (map (converted rd) todo)
             (converted rd m)).
    - apply Forall_map. rewrite Forall_forall in *. intros a Hin.
      apply converted_max_float. split.
      + apply Hf. apply in_or_app. now left.
      + intros _. apply Hd. exact Hin.
    - apply converted_max_complex; auto.
      rewrite Forall_forall in Hf. apply Hf. apply in_or_app. right. now left.
    - reflexivity. }
  eexists. split; [reflexivity|]. env_simpl. auto.
Qed.

Lemma frost_witness :
  exists e',
    create_pdf
      (initial_env report_air_sccm [specimen_1] [warm; frosty; cold] [] [])
    = (Raise TypeError, e')
    /\ df_list e' = map row (map (converted report_air_sccm) [warm])
    /\ element_listx e' = [] /\ element_listy e' = [].
Proof.
  apply (@sccm_air_report_fails_below_zero_degrees
           report_air_sccm [specimen_1] [warm] frosty [cold] [] []).
  - reflexivity.
  - reflexivity.
  - repeat constructor.
  - repeat constructor. simpl. lra.
  - simpl. lra.
Defined.

End CreatePdfMore.

(** ** create_pdf: what a run leaves as it is *)

Section Frame.
Local Open Scope R_scope.

Lemma same_identity_refl (m : Measurement) : same_identity m m.
Proof. repeat split. Qed.

Lemma same_identity_trans (a b c : Measurement) :
  same_identity a b -> same_identity b c -> same_identity a c.
Proof. unfold same_identity. intuition congruence. Qed.

Lemma Forall2_same_identity_refl (l : list Measurement) :
  Forall2 same_identity l l.
Proof. induction l; constructor; auto using same_identity_refl. Qed.

Lemma Forall2_same_identity_trans (a b c : list Measurement) :
  Forall2 same_identity a b -> Forall2 same_identity b c ->
  Forall2 same_identity a c.
Proof.
  intros H. revert c. induction H as [|x y a b Hxy H IH]; intros c Hc.
  - inversion Hc. constructor.
  - inversion Hc; subst. constructor; eauto using same_identity_trans.
Qed.

Lemma frame_refl (e : Env) : frame e e.
Proof. repeat split. apply Forall2_same_identity_refl. Qed.

Lemma frame_trans (a b c : Env) : frame a b -> frame b c -> frame a c.
Proof.
  intros (H1 & H2 & H3) (H4 & H5 & H6). repeat split; try congruence.
  eapply Forall2_same_identity_trans; eassumption.
Qed.

Lemma framed_ret {A} (a : A) : framed (ret a).
Proof. intros e. apply frame_refl. Qed.

Lemma framed_raise {A} (x : exn) : framed (@raise Env A x).
Proof. intros e. apply frame_refl. Qed.

Lemma framed_get : framed (@get Env).
Proof. intros e. apply frame_refl. Qed.

Lemma framed_lift {A} (r : result A) : framed (lift r).
Proof. intros e. apply frame_refl. Qed.

Lemma framed_modify (f : Env -> Env) :
  (forall e, frame e (f e)) -> framed (modify f).
Proof. intros H e. apply H. Qed.

Lemma framed_bind {A B} (m : M A) (k : A -> M B) :
  framed m -> (forall a, framed (k a)) -> framed (bind m k).
Proof.
  intros Hm Hk e. unfold bind. specialize (Hm e).
  destruct (m e) as [[a|x] e1]; simpl in *.
  - eapply frame_trans; [exact Hm | apply Hk].
  - exact Hm.
Qed.

Lemma frame_set_measurement (r : option nat) (e : Env) :
  frame e (set_measurement r e).
Proof. repeat split. apply Forall2_same_identity_refl. Qed.

Lemma frame_set_flag (b : bool) (e : Env) : frame e (set_flag b e).
Proof. repeat split. apply Forall2_same_identity_refl. Qed.

Lemma frame_set_df_list d (e : Env) : frame e (set_df_list d e).
Proof. repeat split. apply Forall2_same_identity_refl. Qed.

Lemma frame_set_element_listx l (e : Env) : frame e (set_element_listx l e).
Proof. repeat split. apply Forall2_same_identity_refl. Qed.

Lemma frame_set_element_listy l (e : Env) : frame e (set_element_listy l e).
Proof. repeat split. apply Forall2_same_identity_refl. Qed.

Lemma Forall2_update_nth (f : Measurement -> Measurement) (i : nat)
    (l : list Measurement) :
  (forall m, same_identity m (f m)) ->
  Forall2 same_identity l (update_nth i f l).
Proof.
  intros Hf. revert i. induction l as [|x l IH]; intros i; simpl.
  - destruct i; constructor.
  - destruct i; constructor; auto using same_identity_refl,
      Forall2_same_identity_refl.
Qed.

Lemma framed_read_measurement : framed read_measurement.
Proof.
  intros e. unfold read_measurement, bind, get.
  destruct (measurement e) as [i|]; [|apply frame_refl].
  destruct (nth_error (measurements_list e) i); apply frame_refl.
Qed.

Lemma framed_write_measurement (f : Measurement -> Measurement) :
  (forall m, same_identity m (f m)) -> framed (write_measurement f).
Proof.
  intros Hf e. unfold write_measurement, bind, get.
  destruct (measurement e) as [i|]; [|apply frame_refl].
  simpl. repeat split. apply Forall2_update_nth. exact Hf.
Qed.

Lemma same_identity_set_max_value (v : pynum) (m : Measurement) :
  same_identity m (set_max_value v m).
Proof. repeat split. Qed.

Lemma same_identity_set_value (v : pynum) (m : Measurement) :
  same_identity m (set_value_mbarl_second v m).
Proof. repeat split. Qed.

Lemma framed_convert_he_to_air (v : pynum) (T : R) :
  framed (convert_he_to_air v T).
Proof. intros e. rewrite convert_he_to_air_state. apply frame_refl. Qed.

Create HintDb framed discriminated.

Hint Resolve framed_ret framed_raise framed_get framed_lift framed_modify
  framed_bind framed_read_measurement framed_write_measurement
  framed_convert_he_to_air frame_set_measurement frame_set_flag
  frame_set_df_list frame_set_element_listx frame_set_element_listy
  same_identity_set_max_value same_identity_set_value : framed.

Ltac framed_step :=
  repeat first
    [ solve [auto with framed]
    | match goal with
      | |- framed (bind _ _) => apply framed_bind; [|intro]
      | |- framed (modify _) => apply framed_modify; intro
      | |- framed (if ?b then _ else _) => destruct b
      end ].

Lemma framed_convert_measurement : framed convert_measurement.
Proof. unfold convert_measurement. framed_step. Qed.

Lemma framed_append_row : framed append_row.
Proof.
  unfold append_row. framed_step.
Qed.

Lemma framed_for_measurement (body : M bool) (refs : list nat) :
  framed body -> framed (for_measurement body refs).
Proof.
  intros Hb. induction refs as [|i refs IH]; simpl; framed_step.
Qed.

Lemma framed_convert_y_value (y : R) : framed (convert_y_value y).
Proof. unfold convert_y_value. framed_step. Qed.

Lemma framed_convert_y_values (ys : list R) : framed (convert_y_values ys).
Proof.
  induction ys as [|y ys IH]; simpl; framed_step.
  apply framed_convert_y_value.
Qed.

Lemma framed_load_specimens (sps : list Specimen) : framed (load_specimens sps).
Proof.
  induction sps as [|sp sps IH]; simpl; framed_step.
  apply framed_convert_y_values.
Qed.

Lemma framed_load_data_from_database_pdf : framed load_data_from_database_pdf.
Proof.
  unfold load_data_from_database_pdf. framed_step.
  apply framed_load_specimens.
Qed.

(** X7.  Whatever its outcome, a run of [create_pdf] from any environment
    leaves the report and the specimens as they are and changes nothing of
    a measurement but its two leak rates: the list keeps its length and
    order, and each measurement its panel and location numbers, its time
    and its average temperature. *)
Theorem create_pdf_changes_leak_rates_only (e : Env) :
  report_data (snd (create_pdf e)) = report_data e
  /\ specimens (snd (create_pdf e)) = specimens e
  /\ Forall2 same_identity (measurements_list e)
       (measurements_list (snd (create_pdf e))).
Proof.
  assert (H : framed create_pdf).
  { unfold create_pdf. framed_step;
      auto using framed_for_measurement, framed_convert_measurement,
        framed_append_row, framed_load_data_from_database_pdf. }
  apply H.
Qed.

End Frame.

(** ** helium.py: polling the analyzer *)

(** X8.  [read_from_serial] never waits for the port: while nothing is
    waiting it calls itself at once, so on a port that stays idle every
    call, at every recursion limit, ends with [RecursionError]. *)
Theorem read_from_serial_idle_port_overflows (depth : nat) (ser : nat -> poll)
    (k : nat) :
  (forall j, exists n, in_waiting (ser j) = Ok n /\ (n <= 0)%Z) ->
  read_from_serial depth ser k = Raise RecursionError.
Proof.
  intros Hidle. revert k. induction depth as [|depth IH]; intros k.
  - reflexivity.
  - simpl. destruct (Hidle k) as (n & -> & Hn). simpl.
    replace (n >? 0)%Z with false by lia. rewrite IH. reflexivity.
Qed.

Lemma idle_port_witness :
  read_from_serial 1000 idle_port 0 = Raise RecursionError.
Proof.
  apply read_from_serial_idle_port_overflows.
  intros j. exists 0%Z. split; [reflexivity | lia].
Defined.

(** X9.  Data that arrives after the first poll is dropped: when nothing
    is waiting at a call's own poll, the call returns [None] or ends with
    an exception other than [SerialException]; it never returns a helium
    value and never the number 0. *)
Theorem read_from_serial_drops_late_data (depth : nat) (ser : nat -> poll)
    (k : nat) (n : Z) :
  in_waiting (ser k) = Ok n -> (n <= 0)%Z ->
  read_from_serial depth ser k = Ok PNone
  \/ exists x, read_from_serial depth ser k = Raise x /\ x <> SerialException.
Proof.
  intros Hw Hn. destruct depth as [|depth]; simpl.
  - right. eexists. split; [reflexivity | discriminate].
  - rewrite Hw. simpl. replace (n >? 0)%Z with false by lia.
    pose proof (@read_from_serial_catches depth ser (S k)) as Hc.
    destruct (read_from_serial depth ser (S k)) as [r|x]; simpl; [now left|].
    right. exists x.
    destruct x; simpl; try (split; [reflexivity | discriminate]).
    contradiction.
Qed.

Lemma late_data_witness :
  read_from_serial 5 late_port 0 = Ok PNone
  \/ exists x, read_from_serial 5 late_port 0 = Raise x /\ x <> SerialException.
Proof.
  apply read_from_serial_drops_late_data with (n := 0%Z);
    [reflexivity | lia].
Defined.

Lemma read_from_serial_value (depth : nat) (ser : nat -> poll) (k : nat)
    (v : string) :
  read_from_serial depth ser k = Ok (PStr v) ->
  exists n data,
    in_waiting (ser k) = Ok n /\ (0 < n)%Z
    /\ poll_readline (ser k) = Ok data
    /\ parse_data (strip data) = Some v.
Proof.
  destruct depth as [|depth]; simpl; [discriminate|].
  destruct (in_waiting (ser k)) as [n|[]]; simpl; try discriminate.
  destruct (n >? 0)%Z eqn:En.
  - destruct (poll_readline (ser k)) as [data|[]]; simpl; try discriminate.
    destruct (parse_data (strip data)) as [he|] eqn:Ep; simpl; [|discriminate].
    intros E. injection E as <-. exists n, data. repeat split; auto. lia.
  - destruct (read_from_serial depth ser (S k)) as [r|[]]; simpl; discriminate.
Qed.

Lemma read_from_serial_zero (depth : nat) (ser : nat -> poll) (k : nat)
    (z : Z) :
  read_from_serial depth ser k = Ok (PInt z) ->
  z = 0%Z
  /\ (in_waiting (ser k) = Raise SerialException
      \/ poll_readline (ser k) = Raise SerialException).
Proof.
  destruct depth as [|depth]; simpl; [discriminate|].
  destruct (in_waiting (ser k)) as [n|[]] eqn:Ew; simpl; try discriminate.
  - destruct (n >? 0)%Z eqn:En.
    + destruct (poll_readline (ser k)) as [data|[]] eqn:Er; simpl;
        try discriminate.
      * destruct (parse_data (strip data)); discriminate.
      * intros E. injection E as <-. auto.
    + pose proof (@read_from_serial_catches depth ser (S k)) as Hc.
      destruct (read_from_serial depth ser (S k)) as [r|[]]; simpl;
        try discriminate. contradiction.
  - intros E. injection E as <-. auto.
Qed.

(** X10.  [read_data_from_helium] never lets a [SerialException] out.  It
    returns [None] when no port is configured and when the port cannot be
    opened; it returns a helium value only when the port is configured,
    opens, has bytes waiting at the first poll and the line read parses;
    and it returns the number 0 only when the opened port fails during that
    first read. *)
Theorem read_data_from_helium_results (depth : nat) (cfg : device_config)
    (Serial : string -> Z -> result (nat -> poll)) :
  read_data_from_helium depth cfg Serial <> Raise SerialException
  /\ (port cfg = "" -> read_data_from_helium depth cfg Serial = Ok PNone)
  /\ (Serial (port cfg) (baudrate cfg) = Raise SerialException ->
      read_data_from_helium depth cfg Serial = Ok PNone)
  /\ (forall v,
         read_data_from_helium depth cfg Serial = Ok (PStr v) ->
         port cfg <> ""
         /\ exists ser n data,
             Serial (port cfg) (baudrate cfg) = Ok ser
             /\ in_waiting (ser 0%nat) = Ok n /\ (0 < n)%Z
             /\ poll_readline (ser 0%nat) = Ok data
             /\ parse_data (strip data) = Some v)
  /\ (forall z,
         read_data_from_helium depth cfg Serial = Ok (PInt z) ->
         z = 0%Z
         /\ exists ser,
             Serial (port cfg) (baudrate cfg) = Ok ser
             /\ (in_waiting (ser 0%nat) = Raise SerialException
                 \/ poll_readline (ser 0%nat) = Raise SerialException)).
Proof.
  unfold read_data_from_helium. cbv zeta.
  destruct (String.eqb_spec (port cfg) "") as [E|E]; simpl.
  - repeat split; try discriminate; auto.
  - destruct (Serial (port cfg) (baudrate cfg)) as [ser|x] eqn:Es; simpl.
    + pose proof (@read_from_serial_catches depth ser 0) as Hc.
      pose proof (@read_from_serial_value depth ser 0) as Hs.
      pose proof (@read_from_serial_zero depth ser 0) as Hz.
      destruct (read_from_serial depth ser 0%nat) as [r|x] eqn:Er; simpl.
      * split; [discriminate|]. split; [contradiction|].
        split; [discriminate|]. split.
        -- intros v Hv. injection Hv as ->. split; [exact E|].
           destruct (Hs v eq_refl) as (n & data & H1 & H2 & H3 & H4).
           exists ser, n, data. auto.
        -- intros z Hv. injection Hv as ->.
           destruct (Hz z eq_refl) as [-> H]. split; [reflexivity|].
           exists ser. auto.
      * destruct x; simpl; repeat split; try discriminate; try contradiction;
          congruence.
    + destruct x; simpl; repeat split; try discriminate; try contradiction;
        congruence.
Qed.

Lemma helium_reading_witness :
  read_data_from_helium 10 unconfigured (fun _ _ => Ok ready_port) = Ok PNone
  /\ read_data_from_helium 10 analyzer_config failing_serial = Ok PNone
  /\ (port analyzer_config <> ""
      /\ exists ser n data,
          Ok ready_port = Ok ser
          /\ in_waiting (ser 0%nat) = Ok n /\ (0 < n)%Z
          /\ poll_readline (ser 0%nat) = Ok data
          /\ parse_data (strip data) = Some "23.5").
Proof.
  split; [|split].
  - apply (proj1 (proj2 (read_data_from_helium_results 10 unconfigured
                           (fun _ _ => Ok ready_port)))).
    reflexivity.
  - apply (proj1 (proj2 (proj2 (read_data_from_helium_results
                                  10 analyzer_config failing_serial)))).
    reflexivity.
  - apply (proj1 (proj2 (proj2 (proj2 (read_data_from_helium_results
                                  10 analyzer_config
                                  (fun _ _ => Ok ready_port)))))).
    vm_compute. reflexivity.
Defined.

(** ** check_serial.py: the scan as a whole *)

Section Scan.
Variable relay_connect : string -> bool.
Variable serial_at : string -> serial_device.

Lemma get_serial_devices_eq (ports : list port_info) (s : scan_state) :
  get_serial_devices relay_connect serial_at ports s
  = scan_remaining serial_at ports (set_relay_switch false s).
Proof.
  unfold get_serial_devices.
  rewrite bind_modify.
  erewrite bind_run by apply scan_for_relay_never_connects.
  rewrite bind_get. simpl. rewrite bind_ret. reflexivity.
Qed.

Lemma stop_gas_flow_run (port : string) (s : scan_state) :
  exists r, stop_gas_flow serial_at port s = (r, s).
Proof.
  pose proof (stop_gas_flow_state serial_at port s) as H.
  destruct (stop_gas_flow serial_at port s) as [r s1]. simpl in H. subst.
  eauto.
Qed.

Lemma settings_kept_refl (c : device_config) : settings_kept c c.
Proof. repeat split; auto. Qed.

Lemma settings_kept_trans (a b c : device_config) :
  settings_kept a b -> settings_kept b c -> settings_kept a c.
Proof. unfold settings_kept. intuition congruence. Qed.

Lemma settings_kept_connect (via : string) (c : device_config) :
  settings_kept c (connect_via via c).
Proof. repeat split; auto. Qed.

Lemma scan_kept_refl (s : scan_state) : scan_kept s s.
Proof. repeat split; auto. Qed.

Lemma scan_kept_trans (a b c : scan_state) :
  scan_kept a b -> scan_kept b c -> scan_kept a c.
Proof.
  intros (H1 & H2 & H3 & H4) (H5 & H6 & H7 & H8).
  repeat split; try (eapply settings_kept_trans; eassumption).
  congruence.
Qed.

Lemma classify_kept (p : port_info) (s s1 : scan_state) (r : result unit) :
  classify serial_at p s = (r, s1) ->
  scan_kept s s1 /\ relay_switch s1 = relay_switch s.
Proof.
  unfold classify.
  destruct (py_eq (vid_value p) (PInt INFICON_LEAK_DETECTOR_VID)).
  { intros E. injection E as _ <-. repeat split; auto. }
  destruct (py_eq (vid_value p) (PInt HELIUM_ANALYZER_VID)).
  { intros E. injection E as _ <-. repeat split; auto. }
  destruct (py_eq (vid_value p) (PInt SERIAL_PORT_VID)).
  2: { intros E. injection E as _ <-. repeat split; auto. }
  destruct (stop_gas_flow_run (device p) s) as [[[|]|x] E];
    unfold bind; rewrite E; intros E'; injection E' as _ <-;
    repeat split; auto.
Qed.

Lemma scan_remaining_kept (ports : list port_info) (s s' : scan_state)
    (r : result (list (string * string))) :
  scan_remaining serial_at ports s = (r, s') ->
  scan_kept s s' /\ relay_switch s' = relay_switch s.
Proof.
  revert s s' r. induction ports as [|p ports IH]; intros s s' r.
  - intros E. injection E as _ <-. split; [apply scan_kept_refl | reflexivity].
  - cbn [scan_remaining]. unfold bind, ret.
    destruct (classify serial_at p s) as [[[]|x] s1] eqn:Ec;
      apply classify_kept in Ec as [Hk Hr].
    + destruct (scan_remaining serial_at ports s1) as [[l|x] s2] eqn:Es;
        apply IH in Es as [Hk1 Hr1]; intros E; injection E as _ <-;
        (split; [eapply scan_kept_trans; eassumption | congruence]).
    + intros E. injection E as _ <-. auto.
Qed.

(** X11.  Whatever its outcome, a scan keeps the serial settings of the
    leak detector, the helium analyzer and the mass flow controller, never
    marks one of them unavailable (a device that was available before the
    scan is available after it, plugged in or not), leaves the relay's
    configuration untouched and finds no relay switch. *)
Theorem scan_keeps_settings_and_availability (ports : list port_info)
    (s : scan_state) :
  scan_kept s (snd (get_serial_devices relay_connect serial_at ports s))
  /\ relay_switch (snd (get_serial_devices relay_connect serial_at ports s))
     = false.
Proof.
  rewrite get_serial_devices_eq.
  destruct (scan_remaining serial_at ports (set_relay_switch false s))
    as [r s'] eqn:E.
  apply scan_remaining_kept in E as [Hk Hr]. simpl.
  split; [|exact Hr].
  eapply scan_kept_trans; [|exact Hk]. repeat split; auto.
Qed.

Lemma scan_remaining_lists (ports : list port_info) (s s' : scan_state)
    (l : list (string * string)) :
  scan_remaining serial_at ports s = (Ok l, s') ->
  l = map (fun p => (description p, device p)) ports.
Proof.
  revert s s' l. induction ports as [|p ports IH]; intros s s' l.
  - simpl. unfold ret. intros E. injection E as <- _. reflexivity.
  - cbn [scan_remaining map]. unfold bind at 1.
    destruct (classify serial_at p s) as [[[]|x] s1]; [|discriminate].
    unfold bind.
    destruct (scan_remaining serial_at ports s1) as [[l1|x] s2] eqn:E1;
      [|discriminate].
    unfold ret. intros E. injection E as <- _.
    f_equal. eapply IH. exact E1.
Qed.

(** X12.  A scan that returns lists every port, in the order of the
    ports, by description and device name, recognised or not. *)
Theorem get_serial_devices_lists_every_port (ports : list port_info)
    (s s' : scan_state) (l : list (string * string)) :
  get_serial_devices relay_connect serial_at ports s = (Ok l, s') ->
  l = map (fun p => (description p, device p)) ports.
Proof.
  rewrite get_serial_devices_eq. apply scan_remaining_lists.
Qed.


Lemma connect_via_twice (a b : string) (c : device_config) :
  connect_via b (connect_via a c) = connect_via b c.
Proof. reflexivity. Qed.

Lemma find_snoc {A} (f : A -> bool) (l : list A) (a : A) :
  find f (l ++ [a]) =
  match find f l with
  | Some q => Some q
  | None => if f a then Some a else None
  end.
Proof.
  induction l as [|x l IH]; simpl; [reflexivity|].
  destruct (f x); [reflexivity | exact IH].
Qed.

Lemma last_with_vid_cons (v : Z) (p : port_info) (ports : list port_info) :
  last_with_vid v (p :: ports) =
  match last_with_vid v ports with
  | Some q => Some q
  | None => if py_eq (vid_value p) (PInt v) then Some p else None
  end.
Proof.
  unfold last_with_vid. simpl rev. rewrite find_snoc. reflexivity.
Qed.

(** What one port does to the leak detector's and the analyzer's rows. *)
Lemma classify_detector_analyzer (p : port_info) (s s1 : scan_state)
    (r : result unit) :
  classify serial_at p s = (r, s1) ->
  leak_detector s1 =
    (if py_eq (vid_value p) (PInt INFICON_LEAK_DETECTOR_VID)
     then connect_via (strip (device p)) (leak_detector s)
     else leak_detector s)
  /\ helium_analyzer s1 =
    (if py_eq (vid_value p) (PInt HELIUM_ANALYZER_VID)
     then connect_via (strip (device p)) (helium_analyzer s)
     else helium_analyzer s).
Proof.
  unfold classify, vid_value.
  destruct (vid p) as [v|]; simpl.
  2: { intros E. injection E as _ <-. auto. }
  destruct (Z.eqb_spec v INFICON_LEAK_DETECTOR_VID) as [->|H1].
  { intros E. injection E as _ <-. auto. }
  destruct (Z.eqb_spec v HELIUM_ANALYZER_VID) as [->|H2].
  { intros E. injection E as _ <-. auto. }
  destruct (v =? SERIAL_PORT_VID)%Z.
  2: { intros E. injection E as _ <-. auto. }
  destruct (stop_gas_flow_run (device p) s) as [[[|]|x] E];
    unfold bind; rewrite E; intros E'; injection E' as _ <-; auto.
Qed.

Lemma scan_remaining_last_wins (ports : list port_info) (s s' : scan_state)
    (l : list (string * string)) :
  scan_remaining serial_at ports s = (Ok l, s') ->
  leak_detector s'
  = connected_to (last_with_vid INFICON_LEAK_DETECTOR_VID ports)
      (leak_detector s)
  /\ helium_analyzer s'
     = connected_to (last_with_vid HELIUM_ANALYZER_VID ports)
         (helium_analyzer s).
Proof.
  revert s s' l. induction ports as [|p ports IH]; intros s s' l.
  - intros E. injection E as _ <-. auto.
  - cbn [scan_remaining]. unfold bind, ret.
    destruct (classify serial_at p s) as [[[]|x] s1] eqn:Ec; [|discriminate].
    apply classify_detector_analyzer in Ec as [Hd Ha].
    destruct (scan_remaining serial_at ports s1) as [[l1|x] s2] eqn:Es;
      [|discriminate].
    apply IH in Es as [Hd1 Ha1]. intros E. injection E as _ <-.
    rewrite !last_with_vid_cons, Hd1, Ha1, Hd, Ha.
    split.
    + destruct (last_with_vid INFICON_LEAK_DETECTOR_VID ports); simpl;
        destruct (py_eq (vid_value p) (PInt INFICON_LEAK_DETECTOR_VID));
        reflexivity.
    + destruct (last_with_vid HELIUM_ANALYZER_VID ports); simpl;
        destruct (py_eq (vid_value p) (PInt HELIUM_ANALYZER_VID));
        reflexivity.
Qed.

(** X13.  When several ports carry the vendor ID of the leak detector (or
    of the helium analyzer), the device is configured on the last of them
    in the list, under its device name without surrounding whitespace;
    without such a port its configuration stays as it was. *)
Theorem last_listed_port_wins (ports : list port_info) (s s' : scan_state)
    (l : list (string * string)) :
  get_serial_devices relay_connect serial_at ports s = (Ok l, s') ->
  leak_detector s'
  = connected_to (last_with_vid INFICON_LEAK_DETECTOR_VID ports)
      (leak_detector s)
  /\ helium_analyzer s'
     = connected_to (last_with_vid HELIUM_ANALYZER_VID ports)
         (helium_analyzer s).
Proof.
  rewrite get_serial_devices_eq. intros E.
  apply scan_remaining_last_wins in E. exact E.
Qed.

Lemma scan_remaining_app_raise (before after : list port_info)
    (p : port_info) (s s1 s2 : scan_state) (l : list (string * string))
    (x : exn) :
  scan_remaining serial_at before s = (Ok l, s1) ->
  classify serial_at p s1 = (Raise x, s2) ->
  scan_remaining serial_at (before ++ p :: after) s = (Raise x, s2).
Proof.
  revert s l. induction before as [|q before IH]; intros s l.
  - intros E Hc. injection E as _ <-. cbn [app scan_remaining].
    unfold bind. rewrite Hc. reflexivity.
  - cbn [app scan_remaining]. unfold bind, ret.
    destruct (classify serial_at q s) as [[[]|y] s0]; [|discriminate].
    destruct (scan_remaining serial_at before s0) as [[l1|y] s3] eqn:Es;
      [|discriminate].
    intros E Hc. injection E as _ <-.
    erewrite IH by eassumption. reflexivity.
Qed.

(** X14.  A reply that cannot be decoded aborts the scan: when the
    stop-gas-flow probe of a port of vendor 1027 reads bytes that are not
    text, the [ValueError] leaves [stop_gas_flow] and [get_serial_devices];
    the ports after it are not classified and no list is returned, while
    what the ports before it configured stays configured. *)
Theorem undecodable_reply_aborts_the_scan (before after : list port_info)
    (p : port_info) (s s1 : scan_state) (l : list (string * string)) :
  get_serial_devices relay_connect serial_at before s = (Ok l, s1) ->
  vid p = Some SERIAL_PORT_VID ->
  open (serial_at (device p)) (device p) = Ok tt ->
  apply_settings (serial_at (device p))
    (settings_of (mass_flow_controller s1)) = Ok tt ->
  write (serial_at (device p)) ("*@=B" ++ CR) = Ok tt ->
  readline (serial_at (device p)) = Raise ValueError ->
  get_serial_devices relay_connect serial_at (before ++ p :: after) s
  = (Raise ValueError, s1).
Proof.
  rewrite !get_serial_devices_eq. intros E Hv Ho Ha Hw Hr.
  eapply scan_remaining_app_raise; [exact E|].
  unfold classify, vid_value. rewrite Hv. simpl.
  unfold stop_gas_flow, bind, get, lift. fold (settings_of (mass_flow_controller s1)).
  rewrite Ho, Ha, Hw, Hr. reflexivity.
Qed.

End Scan.

Lemma listing_witness :
  [("USB Serial Port", "COM3"); ("Inficon", "COM4 ")]
  = map (fun p => (description p, device p)) [relay_port; detector_port].
Proof.
  eapply (@get_serial_devices_lists_every_port
            (fun _ => true) (fun _ => relay_board)
            [relay_port; detector_port] fresh_scan).
  vm_compute. reflexivity.
Defined.

Lemma two_detectors_witness :
  exists l s',
    get_serial_devices (fun _ => true) (fun _ => relay_board)
      [detector_port; analyzer_port; second_detector_port] fresh_scan
    = (Ok l, s')
    /\ leak_detector s' = connect_via "COM9" unconfigured
    /\ helium_analyzer s' = connect_via "COM7" unconfigured.
Proof.
  eexists. eexists.
  assert (E : get_serial_devices (fun _ => true) (fun _ => relay_board)
                [detector_port; analyzer_port; second_detector_port] fresh_scan
              = (Ok (map (fun p => (description p, device p))
                         [detector_port; analyzer_port; second_detector_port]),
                 mkScan (connect_via "COM9" unconfigured)
                        (connect_via "COM7" unconfigured)
                        unconfigured unconfigured false
                        [InficonUnitConnected "COM4";
                         HeliumAnalyzerConnected "COM7";
                         InficonUnitConnected "COM9"])).
  { vm_compute. reflexivity. }
  split; [exact E|].
  exact (@last_listed_port_wins (fun _ => true) (fun _ => relay_board)
           [detector_port; analyzer_port; second_detector_port] fresh_scan
           _ _ E).
Defined.

Lemma garbled_reply_witness :
  get_serial_devices (fun _ => true) (fun _ => garbling)
    ([detector_port] ++ relay_port :: [analyzer_port]) fresh_scan
  = (Raise ValueError,
     mkScan (connect_via "COM4" unconfigured) unconfigured unconfigured
            unconfigured false [InficonUnitConnected "COM4"]).
Proof.
  apply (@undecodable_reply_aborts_the_scan
           (fun _ => true) (fun _ => garbling)
           [detector_port] [analyzer_port] relay_port fresh_scan _
           [("Inficon", "COM4 ")]);
    try reflexivity.
Defined.

(** ** HeliumLeakTestApp.py: the warm-up timer *)

Lemma update_timer_counts (w : window) (k : nat) :
  (Z.of_nat k <= remaining_time w)%Z ->
  remaining_time (Nat.iter k update_timer w) = (remaining_time w - Z.of_nat k)%Z
  /\ timer_frame_placed (Nat.iter k update_timer w) = timer_frame_placed w
  /\ tests_enabled (Nat.iter k update_timer w) = tests_enabled w
  /\ message_placed (Nat.iter k update_timer w) = message_placed w
  /\ scheduled (Nat.iter k update_timer w)
     = (scheduled w ++ repeat (1000%Z, UpdateTimer) k)%list
  /\ ((0 < k)%nat ->
      timer_label (Nat.iter k update_timer w)
      = format_02 ((remaining_time w - Z.of_nat k + 1) / 60) ++ ":"
        ++ format_02 ((remaining_time w - Z.of_nat k + 1) mod 60)).
Proof.
  induction k as [|k IH]; intros Hk.
  - simpl. rewrite app_nil_r, Z.sub_0_r. repeat split; auto. lia.
  - destruct IH as (Hr & Hf & He & Hm & Hs & _); [lia|].
    rewrite !Nat.iter_succ. set (w' := Nat.iter k update_timer w) in *.
    unfold update_timer.
    replace (remaining_time w' <=? 0)%Z with false by lia.
    cbn [remaining_time timer_frame_placed tests_enabled message_placed
         scheduled timer_label].
    rewrite Hr, Hs.
    repeat split; auto.
    + lia.
    + rewrite <- app_assoc. f_equal.
      change [(1000%Z, UpdateTimer)] with (repeat (1000%Z, UpdateTimer) 1).
      rewrite <- repeat_app. f_equal. lia.
    + intros _.
      replace (remaining_time w - Z.of_nat (S k) + 1)%Z
        with (remaining_time w - Z.of_nat k)%Z by lia.
      reflexivity.
Qed.

(** X15.  The countdown.  From a remaining time of [r] seconds, the first
    [r] calls of [update_timer] leave the test buttons and the timer frame
    as they are, each schedules the next call one second later, and the
    [k]-th of them shows the time [r - k + 1] as minutes and seconds, so
    the last time shown is one second and zero is never shown; call
    [r + 1] stops the timer: it enables the tests, removes the timer frame,
    shows the ready message and schedules its removal instead of another
    call. *)
Theorem countdown_enables_the_tests (w : window) (r : nat) :
  remaining_time w = Z.of_nat r ->
  (forall k, (k <= r)%nat ->
     tests_enabled (Nat.iter k update_timer w) = tests_enabled w
     /\ timer_frame_placed (Nat.iter k update_timer w) = timer_frame_placed w
     /\ remaining_time (Nat.iter k update_timer w) = Z.of_nat (r - k)
     /\ ((0 < k)%nat ->
         timer_label (Nat.iter k update_timer w)
         = format_02 (Z.of_nat (r - k + 1) / 60) ++ ":"
           ++ format_02 (Z.of_nat (r - k + 1) mod 60)))
  /\ tests_enabled (Nat.iter (S r) update_timer w) = true
  /\ timer_frame_placed (Nat.iter (S r) update_timer w) = false
  /\ message_placed (Nat.iter (S r) update_timer w) = true
  /\ scheduled (Nat.iter (S r) update_timer w)
     = (scheduled w ++ repeat (1000%Z, UpdateTimer) r
        ++ [(5000%Z, DisplayActiveMessage)])%list.
Proof.
  intros Hr. split.
  - intros k Hk.
    destruct (@update_timer_counts w k) as (H1 & H2 & H3 & H4 & H5 & H6);
      [lia|].
    repeat split; auto.
    + rewrite H1, Hr. lia.
    + intros Hpos. rewrite (H6 Hpos), Hr.
      replace (Z.of_nat r - Z.of_nat k + 1)%Z with (Z.of_nat (r - k + 1)) by lia.
      reflexivity.
  - destruct (@update_timer_counts w r) as (H1 & H2 & H3 & H4 & H5 & _); [lia|].
    rewrite !Nat.iter_succ. set (w' := Nat.iter r update_timer w) in *.
    unfold update_timer.
    replace (remaining_time w' <=? 0)%Z with true by lia.
    cbn [stop_timer tests_enabled timer_frame_placed message_placed scheduled].
    rewrite H5, <- app_assoc. auto.
Qed.

Lemma twenty_minutes_witness :
  (forall k, (k <= 1200)%nat ->
     tests_enabled (Nat.iter k update_timer (start_window 0)) = false
     /\ timer_frame_placed (Nat.iter k update_timer (start_window 0)) = true
     /\ remaining_time (Nat.iter k update_timer (start_window 0))
        = Z.of_nat (1200 - k)
     /\ ((0 < k)%nat ->
         timer_label (Nat.iter k update_timer (start_window 0))
         = format_02 (Z.of_nat (1200 - k + 1) / 60) ++ ":"
           ++ format_02 (Z.of_nat (1200 - k + 1) mod 60)))
  /\ tests_enabled (Nat.iter 1201 update_timer (start_window 0)) = true
  /\ timer_frame_placed (Nat.iter 1201 update_timer (start_window 0)) = false
  /\ message_placed (Nat.iter 1201 update_timer (start_window 0)) = true
  /\ scheduled (Nat.iter 1201 update_timer (start_window 0))
     = ([] ++ repeat (1000%Z, UpdateTimer) 1200
        ++ [(5000%Z, DisplayActiveMessage)])%list.
Proof.
  apply (@countdown_enables_the_tests (start_window 0) 1200).
  reflexivity.
Defined.

(** X16.  A manual start does not cancel the countdown.  After
    [stop_timer] has run from the button and the ready message has been
    removed, the remaining time is what it was and the scheduled calls of
    [update_timer] go on; when they run out, [stop_timer] runs a second
    time and the ready message is shown again. *)
Theorem manual_start_leaves_the_countdown_running (w : window) (r : nat) :
  remaining_time w = Z.of_nat r ->
  let started := display_active_message (stop_timer w) in
  tests_enabled started = true
  /\ message_placed started = false
  /\ remaining_time started = Z.of_nat r
  /\ message_placed (Nat.iter (S r) update_timer started) = true
  /\ scheduled (Nat.iter (S r) update_timer started)
     = (scheduled w ++ (5000%Z, DisplayActiveMessage)
          :: repeat (1000%Z, UpdateTimer) r
        ++ [(5000%Z, DisplayActiveMessage)])%list.
Proof.
  intros Hr started.
  assert (Hs : remaining_time started = Z.of_nat r) by exact Hr.
  repeat split; auto.
  - destruct (@update_timer_counts started r) as (H1 & H2 & H3 & H4 & H5 & _);
      [lia|].
    rewrite !Nat.iter_succ. set (w' := Nat.iter r update_timer started) in *.
    unfold update_timer.
    replace (remaining_time w' <=? 0)%Z with true by lia. reflexivity.
  - destruct (@update_timer_counts started r) as (H1 & H2 & H3 & H4 & H5 & _);
      [lia|].
    rewrite !Nat.iter_succ. set (w' := Nat.iter r update_timer started) in *.
    unfold update_timer.
    replace (remaining_time w' <=? 0)%Z with true by lia.
    cbn [stop_timer scheduled]. rewrite H5. subst started.
    cbn [display_active_message stop_timer scheduled].
    rewrite <- !app_assoc. reflexivity.
Qed.

Lemma manual_start_witness :
  let started := display_active_message (stop_timer (start_window 0)) in
  tests_enabled started = true
  /\ message_placed started = false
  /\ remaining_time started = Z.of_nat 1200
  /\ message_placed (Nat.iter 1201 update_timer started) = true
  /\ scheduled (Nat.iter 1201 update_timer started)
     = ([] ++ (5000%Z, DisplayActiveMessage)
          :: repeat (1000%Z, UpdateTimer) 1200
        ++ [(5000%Z, DisplayActiveMessage)])%list.
Proof.
  apply (@manual_start_leaves_the_countdown_running (start_window 0) 1200).
  reflexivity.
Defined.

(** ** create_graphs *)

Section Graphs.
Local Open Scope R_scope.

Lemma max_from_spec (l : list pynum) (b : R) :
  Forall is_float l ->
  exists v, max_from (PyFloat b) l = Ok (PyFloat v)
            /\ (v = b \/ In (PyFloat v) l)
            /\ b <= v /\ Forall (fun y => py_le y (PyFloat v)) l.
Proof.
  revert b. induction l as [|y l IH]; intros b Hf.
  - exists b. simpl. repeat split; auto. lra.
  - inversion Hf as [|? ? Hy Hl]; subst.
    destruct y as [x|]; [|contradiction]. simpl.
    destruct (Rlt_dec b x) as [Hlt|Hge].
    + destruct (IH x Hl) as (v & E & Hin & Hle & Hall).
      exists v. split; [exact E|]. split; [|split].
      * destruct Hin as [->|Hin]; auto.
      * lra.
      * constructor; [exact Hle | exact Hall].
    + destruct (IH b Hl) as (v & E & Hin & Hle & Hall).
      exists v. split; [exact E|]. split; [|split].
      * destruct Hin as [->|Hin]; auto.
      * exact Hle.
      * constructor; [simpl; lra | exact Hall].
Qed.

Lemma py_max_spec (l : list pynum) :
  l <> [] -> Forall is_float l ->
  exists v, py_max l = Ok v /\ is_highest v l.
Proof.
  intros Hne Hf. destruct l as [|y l]; [contradiction|].
  inversion Hf as [|? ? Hy Hl]; subst.
  destruct y as [b|]; [|contradiction].
  destruct (max_from_spec b Hl) as (v & E & Hin & Hle & Hall).
  exists (PyFloat v). split; [exact E|]. split.
  - destruct Hin as [->|Hin]; [now left | now right].
  - constructor; [exact Hle | exact Hall].
Qed.

Lemma highest_values_spec (gy : list (list pynum)) :
  Forall (fun ys => ys <> [] /\ Forall is_float ys) gy ->
  exists hs, highest_values gy = Ok hs /\ Forall2 is_highest hs gy.
Proof.
  induction 1 as [|ys gy [Hne Hf] _ (hs & E & Hall)].
  - exists []. split; [reflexivity | constructor].
  - destruct (py_max_spec Hne Hf) as (v & Ev & Hv).
    exists (v :: hs). simpl. rewrite Ev, E. split; [reflexivity|].
    constructor; assumption.
Qed.

Lemma highest_values_empty (before after : list (list pynum)) :
  Forall (fun ys => ys <> [] /\ Forall is_float ys) before ->
  highest_values (before ++ [] :: after) = Raise ValueError.
Proof.
  induction 1 as [|ys gy [Hne Hf] _ IH]; [reflexivity|].
  destruct (py_max_spec Hne Hf) as (v & Ev & Hv).
  simpl. rewrite Ev, IH. reflexivity.
Qed.

(** X17.  The trend graph (graph type 1).  When every series has at
    least one point and holds floats, the graph has one curve labelled
    "specimen" whose x values are 1 to the number of series and whose y
    values are the highest value of each series: a value of the series that
    no other exceeds.  A series without points makes [max] raise
    [ValueError], and no figure is made. *)
Theorem trend_graph_plots_the_highest_values
    (gx : list (list R)) (gy : list (list pynum)) :
  (Forall (fun ys => ys <> [] /\ Forall is_float ys) gy ->
   exists hs,
     create_graphs 1 gx gy
     = Drawn (Some (mkFigure "Trend of Highest Leak rates" "Specimen/Location"
                             "Highest Leakrate [mbarˑl/s]" None
                             [mkCurve (map INR (seq 1 (length gy))) hs
                                      "specimen"]))
     /\ Forall2 is_highest hs gy)
  /\ (forall before after,
        gy = (before ++ [] :: after)%list ->
        Forall (fun ys => ys <> [] /\ Forall is_float ys) before ->
        create_graphs 1 gx gy = Failed (DataError ValueError)).
Proof.
  split.
  - intros H. destruct (highest_values_spec H) as (hs & E & Hall).
    exists hs. split; [|exact Hall].
    unfold create_graphs. simpl. rewrite E.
    rewrite (Forall2_length Hall). reflexivity.
  - intros before after -> Hb. unfold create_graphs. simpl.
    rewrite highest_values_empty by exact Hb. reflexivity.
Qed.


Lemma plot_specimens_short (gy : list (list pynum)) (pre gx : list (list R)) :
  (length gx < length gy)%nat ->
  plot_specimens (length pre) (pre ++ gx) gy = Failed IndexError.
Proof.
  revert pre gx. induction gy as [|ys gy IH]; intros pre gx Hl.
  - simpl in Hl. lia.
  - destruct gx as [|xs gx]; cbn [plot_specimens].
    + rewrite app_nil_r.
      replace (nth_error pre (length pre)) with (@None (list R)); [reflexivity|].
      symmetry. apply nth_error_None. lia.
    + rewrite nth_error_middle. cbv zeta.
      specialize (IH (pre ++ [xs])%list gx).
      rewrite length_app, <- app_assoc in IH. cbn [length app] in IH.
      replace (length pre + 1)%nat with (S (length pre)) in IH by lia.
      rewrite IH by (simpl in Hl; lia). reflexivity.
Qed.


Lemma bind_ok_inv {S A B} (m : ST S A) (k : A -> ST S B) (s s' : S) (b : B) :
  bind m k s = (Ok b, s') ->
  exists a s1, m s = (Ok a, s1) /\ k a s1 = (Ok b, s').
Proof.
  unfold bind. destruct (m s) as [[a|x] s1]; [eauto | discriminate].
Qed.

Lemma convert_y_value_state (y : R) (e : Env) :
  snd (convert_y_value y e) = e.
Proof.
  unfold convert_y_value. rewrite bind_get. cbv beta zeta.
  destruct (test_medium (report_data e) =? "Air")%string; [|reflexivity].
  unfold read_measurement. rewrite bind_assoc, bind_get.
  destruct (measurement e) as [i|]; [|reflexivity].
  destruct (nth_error (measurements_list e) i) as [m|]; [|reflexivity].
  rewrite bind_ret. apply convert_he_to_air_state.
Qed.

Lemma convert_y_values_ok (ys : list R) (e e' : Env) (vs : list pynum) :
  convert_y_values ys e = (Ok vs, e') -> e' = e /\ length vs = length ys.
Proof.
  revert vs e'. induction ys as [|y ys IH]; intros vs e'; cbn [convert_y_values].
  - intros E. injection E as <- <-. auto.
  - intros E. apply bind_ok_inv in E as (v & e1 & E1 & E).
    pose proof (convert_y_value_state y e) as Hs. rewrite E1 in Hs.
    simpl in Hs. subst e1.
    apply bind_ok_inv in E as (vs' & e2 & E2 & E).
    apply IH in E2 as [-> Hl]. injection E as <- <-. simpl. auto.
Qed.

Lemma load_specimens_ok (sps : list Specimen) (e e' : Env) :
  load_specimens sps e = (Ok tt, e') ->
  element_listx e' = (element_listx e ++ map (@x_value) sps)%list
  /\ exists yss,
      element_listy e' = (element_listy e ++ yss)%list
      /\ Forall2 same_shape sps yss.
Proof.
  revert e e'. induction sps as [|sp sps IH]; intros e e'; cbn [load_specimens].
  - intros E. injection E as <-. rewrite app_nil_r. split; [reflexivity|].
    exists []. rewrite app_nil_r. split; [reflexivity | constructor].
  - intros E. apply bind_ok_inv in E as (vs & e1 & E1 & E).
    apply convert_y_values_ok in E1 as [-> Hl].
    rewrite !bind_modify in E. apply IH in E as (Hx & yss & Hy & Hs).
    destruct e; simpl in *. split.
    + rewrite Hx, <- app_assoc. reflexivity.
    + exists (vs :: yss). rewrite Hy, <- app_assoc.
      split; [reflexivity | constructor; assumption].
Qed.

(** The series after a successful data path. *)
Lemma create_pdf_series_shape (e e' : Env) :
  create_pdf e = (Ok tt, e') ->
  element_listx e' = map (@x_value) (specimens e)
  /\ Forall2 same_shape (specimens e) (element_listy e').
Proof.
  unfold create_pdf. rewrite bind_modify, bind_get. intros E.
  apply bind_ok_inv in E as ([] & e1 & E1 & E).
  pose proof (@framed_for_measurement convert_measurement
                (seq 0 (length (measurements_list (set_flag true e))))
                framed_convert_measurement (set_flag true e)) as (_ & H1 & _).
  rewrite E1 in H1. simpl in H1.
  rewrite bind_modify, bind_get in E.
  apply bind_ok_inv in E as ([] & e2 & E2 & E).
  pose proof (@framed_for_measurement append_row
                (seq 0 (length (measurements_list (set_df_list [] e1))))
                framed_append_row (set_df_list [] e1)) as (_ & H2 & _).
  rewrite E2 in H2. simpl in H2.
  unfold load_data_from_database_pdf in E.
  rewrite !bind_modify, bind_get in E.
  apply load_specimens_ok in E as (Hx & yss & Hy & Hs).
  simpl in Hx, Hy, Hs. rewrite H2, H1 in *.
  rewrite Hx, Hy. auto.
Qed.

(** X18.  Whenever the data path of [create_pdf] succeeds, from any
    environment, the x-series of the graphs are the specimens' stored
    x-series, whatever the globals held before, and there is one y-series
    per specimen, with as many points as the specimen's stored y-series. *)
Theorem create_pdf_series_have_the_stored_shape (e e' : Env) :
  create_pdf e = (Ok tt, e') ->
  element_listx e' = map (@x_value) (specimens e)
  /\ Forall2 same_shape (specimens e) (element_listy e').
Proof. apply create_pdf_series_shape. Qed.


End Graphs.

Lemma trend_graph_witness :
  (exists hs,
      create_graphs 1 [] [[PyFloat 1%R; PyFloat 3%R]]
      = Drawn (Some (mkFigure "Trend of Highest Leak rates" "Specimen/Location"
                              "Highest Leakrate [mbarˑl/s]" None
                              [mkCurve (map INR (seq 1 1)) hs "specimen"]))
      /\ Forall2 is_highest hs [[PyFloat 1%R; PyFloat 3%R]])
  /\ create_graphs 1 [] [[PyFloat 1%R]; []] = Failed (DataError ValueError).
Proof.
  split.
  - apply (proj1 (trend_graph_plots_the_highest_values
                    [] [[PyFloat 1%R; PyFloat 3%R]])).
    constructor; [split; [discriminate | repeat constructor] | constructor].
  - apply (proj2 (trend_graph_plots_the_highest_values
                    [] [[PyFloat 1%R]; []]) [[PyFloat 1%R]] []).
    + reflexivity.
    + constructor; [split; [discriminate | repeat constructor] | constructor].
Defined.

Lemma series_shape_witness :
  exists e',
    create_pdf (initial_env report_he_mbar [specimen_1] [] [[1%R]] []) = (Ok tt, e')
    /\ element_listx e' = map (@x_value) [specimen_1]
    /\ Forall2 same_shape [specimen_1] (element_listy e').
Proof.
  eexists. split; [apply create_pdf_no_measurements; discriminate|].
  apply (@create_pdf_series_have_the_stored_shape
           (initial_env report_he_mbar [specimen_1] [] [[1%R]] [])).
  apply create_pdf_no_measurements. discriminate.
Defined.


(** ** The graphs of the report and the temporary files *)

Section GraphFilesProperties.
Variable pdf : Type.
Variable get_y : pdf -> R.
Variable add_page : pdf -> pdf.
Variable image : string -> R -> R -> R -> R -> pdf -> pdf.

Local Abbreviation run := (@graphs_and_cleanup pdf get_y add_page image).

(** X20.  A report whose graph type is none of 0, 1 and 2 fails when
    everything else has been drawn: [create_graphs] returns [None], the
    call of [savefig] on it raises [AttributeError], and neither a graph
    file nor the report is written and nothing is opened. *)
Theorem unsupported_graph_type_fails_before_the_report_is_written
    (graph_type : Z) (gx : list (list R)) (gy : list (list pynum))
    (path : string) (d : desk pdf) :
  graph_type <> 0%Z -> graph_type <> 1%Z -> graph_type <> 2%Z ->
  run graph_type gx gy path d = (Failed AttributeError, d).
Proof.
  intros H0 H1 H2. unfold graphs_and_cleanup, create_graphs.
  apply Z.eqb_neq in H0, H1, H2. rewrite H0, H1, H2. reflexivity.
Qed.

Lemma dbind_run {A B} (m : draw pdf A) (k : A -> draw pdf B)
    (d d' : desk pdf) (a : A) :
  m d = (Drawn a, d') -> dbind m k d = k a d'.
Proof. intros H. unfold dbind. now rewrite H. Qed.

Lemma dbind_assoc {A B C} (m : draw pdf A) (f : A -> draw pdf B)
    (g : B -> draw pdf C) (d : desk pdf) :
  dbind (dbind m f) g d = dbind m (fun a => dbind (f a) g) d.
Proof. unfold dbind. destruct (m d) as [[a|x] d']; reflexivity. Qed.

Lemma written_same (name : string) (fs : string -> bool) :
  written name fs name = true.
Proof. unfold written. now rewrite String.eqb_refl. Qed.

Lemma written_other (name n : string) (fs : string -> bool) :
  n <> name -> written name fs n = fs n.
Proof. intros H. apply String.eqb_neq in H. unfold written. now rewrite H. Qed.

Lemma removed_same (name : string) (fs : string -> bool) :
  removed name fs name = false.
Proof. unfold removed. now rewrite String.eqb_refl. Qed.

Lemma removed_other (name n : string) (fs : string -> bool) :
  n <> name -> removed name fs n = fs n.
Proof. intros H. apply String.eqb_neq in H. unfold removed. now rewrite H. Qed.

Lemma reopen_run (name : string) (d : desk pdf) :
  files d name = true ->
  reopen name d = (Drawn tt, set_files (written name (files d)) d).
Proof. intros H. unfold reopen, dbind, dget. now rewrite H. Qed.

Lemma os_remove_run (name : string) (d : desk pdf) :
  files d name = true ->
  os_remove name d = (Drawn tt, set_files (removed name (files d)) d).
Proof. intros H. unfold os_remove, dbind, dget. now rewrite H. Qed.

Ltac file_facts :=
  cbn [files set_files set_doc set_graph_location doc graph_location started];
  repeat first
    [ rewrite written_same
    | rewrite removed_same
    | rewrite written_other by (assumption || discriminate)
    | rewrite removed_other by (assumption || discriminate) ].

Ltac draw_step :=
  rewrite ?dbind_assoc;
  first
    [ erewrite dbind_run by reflexivity
    | erewrite dbind_run by (apply reopen_run; file_facts; reflexivity)
    | erewrite dbind_run by (apply os_remove_run; file_facts; reflexivity) ];
  cbv beta;
  cbn [files set_files set_doc set_graph_location doc graph_location started].

(** X21.  The temporary files.  When the graphs can be drawn, the report
    is written and opened, and afterwards "tmp.png" exists exactly when the
    graph type is 1: a report with the trend graph alone saves it as
    "tmp.png" and removes only "tmp1.png", which it never wrote.  With the
    graph types 0 and 2 "tmp.png" is gone, with 1 and 2 "tmp1.png" is gone,
    and no other file is touched. *)
Theorem temporary_files_after_the_report
    (graph_type : Z) (gx : list (list R)) (gy : list (list pynum))
    (path : string) (d : desk pdf) :
  path <> "tmp.png" -> path <> "tmp1.png" ->
  (graph_type = 0%Z \/ graph_type = 1%Z \/ graph_type = 2%Z) ->
  (graph_type <> 1%Z ->
   exists fig, create_graphs 0 gx gy = Drawn (Some fig)) ->
  (graph_type <> 0%Z ->
   exists fig, create_graphs 1 gx gy = Drawn (Some fig)) ->
  exists d',
    run graph_type gx gy path d = (Drawn tt, d')
    /\ files d' path = true
    /\ started d' = (started d ++ [path])%list
    /\ files d' "tmp.png" = (graph_type =? 1)%Z
    /\ files d' "tmp1.png"
       = (if (graph_type =? 0)%Z then files d "tmp1.png" else false)
    /\ (forall n, n <> path -> n <> "tmp.png" -> n <> "tmp1.png" ->
        files d' n = files d n).
Proof.
  intros Hp Hp1 Ht H0 H1.
  assert (Hq : "tmp.png" <> path) by congruence.
  assert (Hq1 : "tmp1.png" <> path) by congruence.
  destruct Ht as [ -> | [ -> | -> ] ];
    try (destruct H0 as [fig0 E0]; [discriminate|]);
    try (destruct H1 as [fig1 E1]; [discriminate|]);
    unfold graphs_and_cleanup; simpl negb;
    simpl orb; cbv iota; rewrite ?E0, ?E1; unfold savefig, place, dret.
  - repeat draw_step.
    eexists. split; [reflexivity|]. file_facts.
    repeat split; auto. intros nm A B C. file_facts. reflexivity.
  - repeat draw_step. file_facts.
    destruct (files d "tmp1.png") eqn:Ef.
    + eexists. split; [apply os_remove_run; file_facts; exact Ef|]. file_facts.
      repeat split; auto. intros nm A B C. file_facts. reflexivity.
    + eexists. split; [reflexivity|]. file_facts.
      repeat split; auto. intros nm A B C. file_facts. reflexivity.
  - repeat draw_step. file_facts.
    match goal with
    | |- context [Rlt_dec 105 ?y] => destruct (Rlt_dec 105 y)
    end; repeat draw_step; file_facts;
      (eexists; split; [apply os_remove_run; file_facts; reflexivity|]);
      file_facts; repeat split; auto; intros nm A B C; file_facts; reflexivity.
Qed.

End GraphFilesProperties.

Lemma unsupported_graph_type_witness :
  graphs_and_cleanup (fun _ : unit => 0%R) (fun p => p) (fun _ _ _ _ _ p => p)
    3 [] [] "report.pdf" blank_desk
  = (Failed AttributeError, blank_desk).
Proof.
  apply unsupported_graph_type_fails_before_the_report_is_written;
    discriminate.
Defined.

Lemma trend_report_witness :
  exists d',
    graphs_and_cleanup (fun _ : unit => 0%R) (fun p => p)
      (fun _ _ _ _ _ p => p) 1 [] [[PyFloat 1%R]] "report.pdf" blank_desk
    = (Drawn tt, d')
    /\ files d' "report.pdf" = true
    /\ started d' = ["report.pdf"]
    /\ files d' "tmp.png" = true
    /\ files d' "tmp1.png" = false
    /\ (forall n, n <> "report.pdf" -> n <> "tmp.png" -> n <> "tmp1.png" ->
        files d' n = false).
Proof.
  apply (@temporary_files_after_the_report unit (fun _ => 0%R) (fun p => p)
           (fun _ _ _ _ _ p => p) 1 [] [[PyFloat 1%R]] "report.pdf" blank_desk).
  - discriminate.
  - discriminate.
  - right. left. reflexivity.
  - intros H. exfalso. apply H. reflexivity.
  - intros _. eexists. reflexivity.
Defined.

(** ** parse_data and the whitespace around a line *)

Section Whitespace.
Local Close Scope string_scope.
Local Open Scope list_scope.

Lemma lstrip_spec (l : list ascii) :
  exists lead, l = lead ++ lstrip l /\ spaces lead.
Proof.
  induction l as [|x l (lead & E & Hs)]; simpl.
  - exists []. split; [reflexivity | constructor].
  - destruct (is_space x) eqn:Ex.
    + exists (x :: lead). split; [simpl; congruence | constructor; assumption].
    + exists []. split; [reflexivity | constructor].
Qed.

Lemma rstrip_spec (l : list ascii) :
  exists trail, l = rstrip l ++ trail /\ spaces trail.
Proof.
  unfold rstrip. destruct (lstrip_spec (rev l)) as (lead & E & Hs).
  exists (rev lead). split.
  - rewrite <- rev_app_distr, <- E, rev_involutive. reflexivity.
  - apply Forall_rev. exact Hs.
Qed.

Lemma strip_spec (s : string) :
  exists lead trail,
    list_ascii_of_string s
    = lead ++ list_ascii_of_string (strip s) ++ trail
    /\ spaces lead /\ spaces trail.
Proof.
  unfold strip. rewrite list_ascii_of_string_of_list_ascii.
  destruct (lstrip_spec (list_ascii_of_string s)) as (lead & E & Hl).
  destruct (rstrip_spec (lstrip (list_ascii_of_string s))) as (trail & E' & Ht).
  exists lead, trail. split; [|auto].
  rewrite <- E'. exact E.
Qed.

(** The pattern cannot match at a whitespace character. *)
Lemma search_skips_space (x : ascii) (s : list ascii) :
  is_space x = true -> search pattern (x :: s) = search pattern s.
Proof.
  intros Hx. cbn [search].
  assert (E : rmatch pattern (x :: s) [] = []).
  { unfold pattern at 1. cbn [rmatch lit list_ascii_of_string strip_prefix].
    destruct (Ascii.eqb_spec "H"%char x) as [<-|_]; [discriminate Hx|].
    reflexivity. }
  rewrite E. reflexivity.
Qed.

Lemma search_skips_spaces (lead s : list ascii) :
  spaces lead -> search pattern (lead ++ s) = search pattern s.
Proof.
  induction 1 as [|x lead Hx _ IH]; [reflexivity|].
  simpl app. rewrite search_skips_space by exact Hx. exact IH.
Qed.

Ltac split_sequence :=
  repeat match goal with
         | H : matches (RSeq _ _) _ _ _ |- _ => inversion H; subst; clear H
         | H : matches (RGroup _ _) _ _ _ |- _ => inversion H; subst; clear H
         end.

(** A match of the pattern ends with a digit of the timestamp. *)
Lemma pattern_ends_with_digit (line : list ascii) (c : captures) :
  matches pattern line [] c ->
  exists body d, line = body ++ [d] /\ is_space d = false.
Proof.
  unfold pattern, timestamp, decimal. intros H. split_sequence.
  match goal with
  | H : matches (RRep 2 Digit) ?m _ _ |- _ =>
      inversion H as [| | |? ? ? ? Hl Hf| | ]; subst; clear H;
      destruct m as [|d1 [|d2 [|? ?]]]; try discriminate Hl
  end.
  inversion Hf as [|? ? _ Hf2]; subst. inversion Hf2 as [|? ? Hd2 _]; subst.
  eexists _, d2. split.
  - change [d1; d2] with ([d1] ++ [d2]). rewrite !app_assoc. reflexivity.
  - apply digit_not_space. exact Hd2.
Qed.

Lemma ends_before_spaces (l trail front rest : list ascii) (d : ascii) :
  l ++ trail = (front ++ [d]) ++ rest ->
  spaces trail -> is_space d = false ->
  exists post, l = (front ++ [d]) ++ post /\ rest = post ++ trail.
Proof.
  intros E Ht Hd. apply app_eq_app in E as [k [[E1 E2]|[E1 E2]]].
  - exists k. auto.
  - destruct k as [|y k].
    + rewrite app_nil_r in E1. simpl in E2. exists [].
      rewrite app_nil_r. auto.
    + exfalso.
      destruct (@exists_last _ (y :: k)) as (k' & z & Ek); [discriminate|].
      rewrite Ek in *. rewrite app_assoc in E1.
      apply app_inj_tail in E1 as [_ ->].
      rewrite E2 in Ht. unfold spaces in Ht.
      rewrite Forall_app in Ht. destruct Ht as [Ht _].
      rewrite Forall_app in Ht. destruct Ht as [_ Ht].
      inversion Ht; subst. congruence.
Qed.

Lemma parse_data_before_spaces (l trail : list ascii) :
  spaces trail ->
  parse_data (string_of_list_ascii (l ++ trail))
  = parse_data (string_of_list_ascii l).
Proof.
  intros Ht. unfold parse_data at 1.
  rewrite list_ascii_of_string_of_list_ascii.
  destruct (search pattern (l ++ trail)) as [[[m rest] c]|] eqn:E.
  - apply search_some in E as (pre & lst & Hs & Hm & Hleft).
    assert (In (m, rest, c) (rmatch pattern (m ++ rest) [])) as Hin
        by (rewrite Hm; now left).
    apply rmatch_spec in Hin as [_ Hin].
    destruct (pattern_ends_with_digit Hin) as (body & d & -> & Hd).
    assert (E : l ++ trail = ((pre ++ body) ++ [d]) ++ rest)
      by (rewrite Hs, <- !app_assoc; reflexivity).
    apply ends_before_spaces in E as (post & El & Er); [|exact Ht|exact Hd].
    symmetry.
    apply parse_data_leftmost with (pre := pre) (line := body ++ [d])
                                   (post := post).
    + rewrite list_ascii_of_string_of_list_ascii, El, <- !app_assoc.
      reflexivity.
    + exact Hin.
    + intros pre' line' post' c' Hs' Hm'.
      rewrite list_ascii_of_string_of_list_ascii in Hs'.
      destruct (le_lt_dec (length pre) (length pre')) as [Hle|Hlt];
        [exact Hle|].
      exfalso.
      assert (Hnil : rmatch pattern (line' ++ post' ++ trail) [] = []).
      { apply (Hleft pre'); [|exact Hlt].
        rewrite Hs', <- !app_assoc. reflexivity. }
      rewrite rmatch_nil in Hnil.
      exact (Hnil line' (post' ++ trail) c' eq_refl Hm').
  - symmetry. apply parse_data_none.
    intros (pre & line & post & c & Hs & Hm).
    rewrite list_ascii_of_string_of_list_ascii in Hs.
    rewrite search_none in E.
    assert (Hnil : rmatch pattern (line ++ post ++ trail) [] = []).
    { apply (E pre). rewrite Hs, <- !app_assoc. reflexivity. }
    rewrite rmatch_nil in Hnil.
    exact (Hnil line (post ++ trail) c eq_refl Hm).
Qed.

(** X22.  Whitespace around the text never changes what [parse_data]
    returns: the pattern starts with "He" and ends with a digit, so a match
    never begins or ends in the whitespace that [strip] removes.  The call
    of [strip] in [read_from_serial] is therefore redundant, and a line read
    with its line ending parses like the line alone. *)
Theorem parse_data_ignores_surrounding_whitespace (data : string) :
  parse_data (strip data) = parse_data data.
Proof.
  destruct (strip_spec data) as (lead & trail & E & Hl & Ht).
  unfold parse_data at 2. rewrite E, search_skips_spaces by exact Hl.
  pose proof (parse_data_before_spaces
                (list_ascii_of_string (strip data)) Ht) as H.
  rewrite string_of_list_ascii_of_string in H. rewrite <- H.
  unfold parse_data. rewrite list_ascii_of_string_of_list_ascii.
  reflexivity.
Qed.

End Whitespace.

(** ** get_power_on_time: a failure after the reply *)

(** X23.  A serial failure after the reply has been read discards the
    reading: when the port opens, takes the settings and the command and
    delivers a reply that parses as the integer [n], but [flushOutput]
    raises [SerialException], [get_power_on_time] returns 0 and not [n]. *)
Theorem late_serial_failure_discards_the_reading
    (leakware_config : device_config) (ser : serial_device)
    (reply : string) (n : Z) :
  open ser (port leakware_config) = Ok tt ->
  apply_settings ser (settings_of leakware_config) = Ok tt ->
  flushInput ser = Ok tt ->
  write ser ("*hour:pow?" ++ CR) = Ok tt ->
  readline ser = Ok reply ->
  py_int reply = Ok n ->
  flushOutput ser = Raise SerialException ->
  get_power_on_time true leakware_config ser = Ok 0%Z.
Proof.
  intros Ho Ha Hf Hw Hr Hi Hx. unfold get_power_on_time.
  fold (settings_of leakware_config).
  rewrite Ho, Ha, Hf, Hw, Hr. simpl. rewrite Hi, Hx. reflexivity.
Qed.

Lemma late_serial_failure_witness :
  get_power_on_time true detector_config
    (mkSerial (fun _ => Ok tt) (fun _ => Ok tt) (Ok tt) (fun _ => Ok tt)
              (Ok ("17" ++ CR)) (Raise SerialException))
  = Ok 0%Z.
Proof.
  apply late_serial_failure_discards_the_reading
    with (reply := "17" ++ CR) (n := 17%Z); reflexivity.
Defined.
